(** * relic: timestamp verification (lib/pkcs9/pkcs7.go) and the PowerShell
      signer facade (signers/ps/signer.go)

    A shallow embedding of the two Go source files.  Go functions that return
    [(T, error)] become functions into [Err T]; functions that return only an
    [error] become functions into [option error] ([None] is Go's [nil]).
    Everything the two files call but do not define (the ASN.1 codec, the
    cryptographic primitives, the certificate path builder, the style
    registry, the timestamp client) is a field of an interface class, so every
    theorem holds for all implementations of these collaborators. *)

From Stdlib Require Import ZArith NArith List String Bool Lia.
From Stdlib.Strings Require Byte.
From stdpp Require Import base option list strings gmap.

Import ListNotations.
Local Open Scope string_scope.
Local Open Scope Z_scope.

(** ** Go values shared by both packages *)

Definition bytes := list Byte.byte.

#[global] Instance byte_eq_decision : EqDecision Byte.byte := Byte.byte_eq_dec.

(** [asn1.ObjectIdentifier] is a slice of integers. *)
Definition ObjectIdentifier := list Z.

(** [time.Time], as the time elapsed since January 1, year 1, 00:00:00 UTC;
    Go's zero [time.Time] is that instant itself. *)
Definition Time := Z.

Definition time_zero : Time := 0.

(** [Time.IsZero]. *)
Definition time_IsZero (t : Time) : bool := (t =? 0)%Z.

(** Go errors.  The two files distinguish one dynamic type only,
    [pkcs7.ErrNoAttribute], by a type assertion; of every other error only the
    message is observable ([errors.New], [fmt.Errorf], and the errors of the
    collaborators).  The type assertion [_, ok := err.(pkcs7.ErrNoAttribute)]
    is a match on the constructor. *)
Inductive error : Type :=
| ErrNoAttribute (ID : ObjectIdentifier)
| errorString (s : string).

Definition Err (A : Type) : Type := (A + error)%type.

Notation "x <-? e ; k" :=
  (match e with inl x => k | inr err => inr err end)
  (at level 100, e at next level, k at level 200, right associativity,
   format "'[v' x  <-?  e ; '/' k ']'").

(** ** Package crypto, pkix and x509: the values the code passes around *)

Module crypto.
(** [crypto.Hash] is an unsigned integer; 0 names no hash function. *)
Definition Hash := N.
End crypto.

Module pkix.
Record AlgorithmIdentifier := {
  Algorithm : ObjectIdentifier;
  Parameters : bytes
}.
End pkix.

Module x509.
Inductive ExtKeyUsage :=
| ExtKeyUsageAny
| ExtKeyUsageServerAuth
| ExtKeyUsageClientAuth
| ExtKeyUsageCodeSigning
| ExtKeyUsageEmailProtection
| ExtKeyUsageTimeStamping
| ExtKeyUsageOCSPSigning.

Record Certificate := {
  Raw : bytes;
  NotBefore : Time;
  NotAfter : Time;
  ExtKeyUsages : list ExtKeyUsage
}.

(** A [CertPool] is used here only as a bag certificates are added to. *)
Definition CertPool := list Certificate.

Record VerifyOptions := {
  Intermediates : CertPool;
  Roots : CertPool;
  CurrentTime : Time;
  KeyUsages : list ExtKeyUsage
}.
End x509.

(** ** Package pkcs7: the structures of the codec *)

Module pkcs7.
Record Attribute := {
  Type_ : ObjectIdentifier;
  Values : bytes
}.

Definition AttributeList := list Attribute.

Record SignerInfo := {
  Version : Z;
  DigestAlgorithm : pkix.AlgorithmIdentifier;
  AuthenticatedAttributes : AttributeList;
  DigestEncryptionAlgorithm : pkix.AlgorithmIdentifier;
  EncryptedDigest : bytes;
  UnauthenticatedAttributes : AttributeList
}.

Record ContentInfo := {
  ContentType : ObjectIdentifier;
  Content : bytes
}.

Definition RawCertificates := bytes.

Record SignedData := {
  SD_ContentInfo : ContentInfo;
  Certificates : RawCertificates;
  SignerInfos : list SignerInfo
}.

Record ContentInfoSignedData := {
  CISD_ContentType : ObjectIdentifier;
  CISD_Content : SignedData
}.

(** A validated signature: the Go field [SignerInfo] is a pointer to a
    [SignerInfo] nothing else writes to, so it is held by value. *)
Record Signature := {
  Sig_SignerInfo : SignerInfo;
  Sig_Certificate : x509.Certificate;
  Intermediates : list x509.Certificate
}.

(** Modelled from the spec: [AttributeList.GetOne] of lib/pkcs7, which is
    not among the sources: [attributes.getOne(oid, &outValue) ->
    error(NotFound)].  The first attribute of the list whose type is [oid]
    is decoded into the destination; without such an attribute the result
    is the not-found error, which the callers recognise as
    [pkcs7.ErrNoAttribute]; a value that does not decode is an error of the
    ASN.1 decoder (given by its message), which is never an
    [ErrNoAttribute]. *)
Fixpoint GetOne {A : Type} (unmarshal : bytes -> A + string)
    (l : AttributeList) (oid : ObjectIdentifier) : Err A :=
  match l with
  | [] => inr (ErrNoAttribute oid)
  | raw :: rest =>
      if decide (Type_ raw = oid) then
        match unmarshal (Values raw) with
        | inl v => inl v
        | inr msg => inr (errorString msg)
        end
      else GetOne unmarshal rest oid
  end.

(** An attribute list carries [oid] when one of its attributes has that
    type. *)
Definition carries (l : AttributeList) (oid : ObjectIdentifier) : Prop :=
  Exists (fun raw => Type_ raw = oid) l.

(** The attributes of type [oid], in their order. *)
Definition only (oid : ObjectIdentifier) (l : AttributeList) : AttributeList :=
  List.filter (fun raw => bool_decide (Type_ raw = oid)) l.

(** The signature [sig] with, of its unauthenticated attributes, only those
    of type [oid]. *)
Definition restrictTo (oid : ObjectIdentifier) (sig : Signature) : Signature :=
  let si := Sig_SignerInfo sig in
  {| Sig_SignerInfo :=
       {| Version := Version si;
          DigestAlgorithm := DigestAlgorithm si;
          AuthenticatedAttributes := AuthenticatedAttributes si;
          DigestEncryptionAlgorithm := DigestEncryptionAlgorithm si;
          EncryptedDigest := EncryptedDigest si;
          UnauthenticatedAttributes := only oid (UnauthenticatedAttributes si) |};
     Sig_Certificate := Sig_Certificate sig;
     Intermediates := Intermediates sig |}.
End pkcs7.

(** ** Package pkcs9: the timestamp structures *)

Module pkcs9types.
Record MessageImprint := {
  HashAlgorithm : pkix.AlgorithmIdentifier;
  HashedMessage : bytes
}.

Record TSTInfo := {
  Policy : ObjectIdentifier;
  TSTInfo_MessageImprint : MessageImprint;
  GenTime : Time
}.
End pkcs9types.

(** ** The collaborators

    What the two files use of the rest of the repository and of Go's
    libraries, without defining it. *)

Class Collaborators := {
  (** the attribute identifiers, declared in lib/pkcs9 and lib/pkcs7 *)
  OidAttributeTimeStampToken : ObjectIdentifier;
  OidSpcTimeStampToken : ObjectIdentifier;
  OidAttributeCounterSign : ObjectIdentifier;
  OidAttributeSigningTime : ObjectIdentifier;
  (** [ErrNoAttribute.Error()] *)
  ErrNoAttribute_Error : ObjectIdentifier -> string;
  (** [asn1.Unmarshal] at the three destination types the code uses *)
  unmarshalSignedData : bytes -> pkcs7.ContentInfoSignedData + string;
  unmarshalSignerInfo : bytes -> pkcs7.SignerInfo + string;
  unmarshalTime : bytes -> Time + string;
  (** [RawCertificates.Parse], [ContentInfo.Bytes], [UnpackTokenInfo] *)
  RawCertificates_Parse : pkcs7.RawCertificates -> Err (list x509.Certificate);
  ContentInfo_Bytes : pkcs7.ContentInfo -> Err bytes;
  UnpackTokenInfo : pkcs7.ContentInfoSignedData -> Err pkcs9types.TSTInfo;
  (** the digest of some bytes under an algorithm, when that algorithm is
      available, and the error a failed digest check is reported with *)
  digestOf : pkix.AlgorithmIdentifier -> bytes -> option bytes;
  ErrDigestCheck : error;
  (** [x509tools.PkixDigestToHash] *)
  PkixDigestToHash : pkix.AlgorithmIdentifier -> crypto.Hash * bool;
  (** [SignerInfo.Verify(content, skipDigests, certs)] *)
  SignerInfo_Verify :
    pkcs7.SignerInfo -> bytes -> bool -> list x509.Certificate ->
    Err x509.Certificate;
  (** the path builder of crypto/x509, at an explicit reference time:
      a chain from the certificate through the intermediates to a root,
      every certificate of it valid at that time and fit for the usages *)
  buildChains :
    x509.Certificate -> x509.CertPool -> x509.CertPool ->
    list x509.ExtKeyUsage -> Time -> option error
}.

(** [err.Error()] *)
Definition Error `{Collaborators} (e : error) : string :=
  match e with
  | ErrNoAttribute ID => ErrNoAttribute_Error ID
  | errorString s => s
  end.

(** [x509.Certificate.Verify] of Go's standard library: [CurrentTime] "is
    used to check the validity of all certificates in the chain.  If zero, the
    current time is used."  The clock is the explicit argument [now]. *)
Definition Certificate_Verify `{Collaborators} (now : Time)
    (c : x509.Certificate) (opts : x509.VerifyOptions) : option error :=
  let t := if time_IsZero (x509.CurrentTime opts) then now
           else x509.CurrentTime opts in
  buildChains c (x509.Intermediates opts) (x509.Roots opts)
    (x509.KeyUsages opts) t.

(** Modelled from the spec: [Signature.VerifyChain] of lib/pkcs7, which is not
    among the sources.  It validates the main signature's certificate against
    the trust roots for the required usage at the reference time it is given;
    handed Go's zero time it validates at the current time ("If no timestamp
    is present, then the current time will be used when validating the
    chain", as the comment on [VerifyOptionalTimestamp] has it).  It builds
    its pool the way [CounterSignature.VerifyChain] does. *)
Definition Signature_VerifyChain `{Collaborators} (now : Time)
    (info : pkcs7.Signature) (roots : x509.CertPool)
    (extraCerts : list x509.Certificate) (usage : x509.ExtKeyUsage)
    (currentTime : Time) : option error :=
  let pool := (extraCerts ++ pkcs7.Intermediates info)%list in
  let opts := {| x509.Intermediates := pool;
                 x509.Roots := roots;
                 x509.CurrentTime := currentTime;
                 x509.KeyUsages := [usage] |} in
  Certificate_Verify now (pkcs7.Sig_Certificate info) opts.

Module pkcs9.
Export pkcs9types.

Section Timestamps.
Context `{Collaborators}.

(** Modelled from the spec: [MessageImprint.Verify] of lib/pkcs9 (its file
    is not among the sources): it "recomputes the hash of the supplied bytes
    with the stated algorithm and compares for equality; any mismatch is a
    hard integrity failure".  An algorithm that is not available yields no
    digest, which is a mismatch as well. *)
Definition MessageImprint_Verify (i : MessageImprint) (data : bytes)
    : option error :=
  match digestOf (HashAlgorithm i) data with
  | Some digest =>
      if decide (digest = HashedMessage i) then None else Some ErrDigestCheck
  | None => Some ErrDigestCheck
  end.

(** Validated timestamp token.  The embedded [pkcs7.Signature] is the field
    [Signature]. *)
Record CounterSignature := {
  Signature : pkcs7.Signature;
  Hash : crypto.Hash;
  SigningTime : Time
}.

(** Validated signature containing a valid timestamp token; a nil
    [*CounterSignature] is [None]. *)
Record TimestampedSignature := {
  TS_Signature : pkcs7.Signature;
  TS_CounterSignature : option CounterSignature
}.

(** Lines 61-64: the two token attributes, the second looked up only when
    the first lookup ends in [ErrNoAttribute]. *)
Definition lookupToken (attrs : pkcs7.AttributeList)
    : Err pkcs7.ContentInfoSignedData :=
  match pkcs7.GetOne unmarshalSignedData attrs OidAttributeTimeStampToken with
  | inr (ErrNoAttribute _) =>
      pkcs7.GetOne unmarshalSignedData attrs OidSpcTimeStampToken
  | r => r
  end.

(** What the branches of lines 68-106 leave in [tsi], [certs], [verifyBlob]
    and [imprintHash]. *)
Definition Located : Type :=
  (pkcs7.SignerInfo * list x509.Certificate * bytes * crypto.Hash)%type.

(** Lines 69-94: the branch [err == nil]. *)
Definition tokenBranch (sig : pkcs7.Signature)
    (tst : pkcs7.ContentInfoSignedData) : Err Located :=
  let certs := pkcs7.Intermediates sig in
  match pkcs7.SignerInfos (pkcs7.CISD_Content tst) with
  | [tsi] =>
      tsicerts <-? RawCertificates_Parse
                     (pkcs7.Certificates (pkcs7.CISD_Content tst));
      let certs := if negb (Nat.eqb (length tsicerts) 0)
                   then (certs ++ tsicerts)%list else certs in
      tstinfo <-? UnpackTokenInfo tst;
      match MessageImprint_Verify (TSTInfo_MessageImprint tstinfo)
              (pkcs7.EncryptedDigest (pkcs7.Sig_SignerInfo sig)) with
      | Some verr =>
          inr (errorString
                 ("failed to verify timestamp imprint: " ++ Error verr))
      | None =>
          let imprintHash :=
            fst (PkixDigestToHash
                   (HashAlgorithm (TSTInfo_MessageImprint tstinfo))) in
          verifyBlob <-? ContentInfo_Bytes
                           (pkcs7.SD_ContentInfo (pkcs7.CISD_Content tst));
          inl (tsi, certs, verifyBlob, imprintHash)
      end
  | _ => inr (errorString "timestamp should have exactly one SignerInfo")
  end.

(** Lines 95-103: the branch taken on [ErrNoAttribute]. *)
Definition counterSignBranch (sig : pkcs7.Signature) : Err Located :=
  let si := pkcs7.Sig_SignerInfo sig in
  tsi <-? pkcs7.GetOne unmarshalSignerInfo
            (pkcs7.UnauthenticatedAttributes si) OidAttributeCounterSign;
  inl (tsi, pkcs7.Intermediates sig, pkcs7.EncryptedDigest si,
       fst (PkixDigestToHash (pkcs7.DigestAlgorithm si))).

(** Lines 107-123. *)
Definition finish (loc : Located) : Err CounterSignature :=
  let '(tsi, certs, verifyBlob, imprintHash) := loc in
  cert <-? SignerInfo_Verify tsi verifyBlob false certs;
  signingTime <-? pkcs7.GetOne unmarshalTime
                    (pkcs7.AuthenticatedAttributes tsi)
                    OidAttributeSigningTime;
  inl {| Signature := {| pkcs7.Sig_SignerInfo := tsi;
                         pkcs7.Sig_Certificate := cert;
                         pkcs7.Intermediates := certs |};
         Hash := imprintHash;
         SigningTime := signingTime |}.

(** [VerifyTimestamp]: look for a timestamp (counter-signature or timestamp
    token) in the unauthenticated attributes of an already validated
    signature and check its integrity. *)
Definition VerifyTimestamp (sig : pkcs7.Signature) : Err CounterSignature :=
  let attrs := pkcs7.UnauthenticatedAttributes (pkcs7.Sig_SignerInfo sig) in
  loc <-? match lookupToken attrs with
          | inl tst => tokenBranch sig tst
          | inr (ErrNoAttribute _) => counterSignBranch sig
          | inr err => inr err
          end;
  finish loc.

(** [VerifyOptionalTimestamp]: Go returns the [TimestampedSignature] next
    to the error in every case. *)
Definition VerifyOptionalTimestamp (sig : pkcs7.Signature)
    : TimestampedSignature * option error :=
  let tsig := {| TS_Signature := sig; TS_CounterSignature := None |} in
  match VerifyTimestamp sig with
  | inr (ErrNoAttribute _) => (tsig, None)
  | inr err => (tsig, Some err)
  | inl ts =>
      ({| TS_Signature := sig; TS_CounterSignature := Some ts |}, None)
  end.

(** [CounterSignature.VerifyChain]: verify that the timestamp token has a
    valid certificate chain. *)
Definition CounterSignature_VerifyChain (now : Time) (cs : CounterSignature)
    (roots : x509.CertPool) (extraCerts : list x509.Certificate)
    : option error :=
  let pool := (extraCerts ++ pkcs7.Intermediates (Signature cs))%list in
  let opts := {| x509.Intermediates := pool;
                 x509.Roots := roots;
                 x509.CurrentTime := SigningTime cs;
                 x509.KeyUsages := [x509.ExtKeyUsageTimeStamping] |} in
  Certificate_Verify now (pkcs7.Sig_Certificate (Signature cs)) opts.

(** [TimestampedSignature.VerifyChain]. *)
Definition TimestampedSignature_VerifyChain (now : Time)
    (sig : TimestampedSignature) (roots : x509.CertPool)
    (extraCerts : list x509.Certificate) (usage : x509.ExtKeyUsage)
    : option error :=
  let signingTime := time_zero in
  match TS_CounterSignature sig with
  | Some cs =>
      match CounterSignature_VerifyChain now cs roots extraCerts with
      | Some err => Some (errorString ("validating timestamp: " ++ Error err))
      | None =>
          let signingTime := SigningTime cs in
          Signature_VerifyChain now (TS_Signature sig) roots extraCerts
            usage signingTime
      end
  | None =>
      Signature_VerifyChain now (TS_Signature sig) roots extraCerts usage
        signingTime
  end.

End Timestamps.
End pkcs9.

(** ** Package ps: the PowerShell signer facade *)

Module signers.
(** [signers.SignOpts]: the fields the facade reads.  [Flags] holds the
    values of the command-line flags by name. *)
Record SignOpts := {
  Path : string;
  Hash : crypto.Hash;
  Flags : gmap string string
}.

Record VerifyOpts := {
  NoDigests : bool
}.

Record Signature := {
  Sig_Hash : crypto.Hash;
  X509Signature : pkcs9.TimestampedSignature
}.

(** [Flags.GetString(name)] of the flag library: the value of the flag, or
    the empty string and an error for a name that has none. *)
Definition FlagSet_GetString (f : gmap string string) (name : string)
    : string * option error :=
  match f !! name with
  | Some value => (value, None)
  | None => ("", Some (errorString ("flag accessed but not defined: " ++ name)))
  end.
End signers.

(** What signer.go uses of lib/authenticode, lib/certloader, signers and
    signers/pkcs without defining it. *)
Class SignerCollaborators := {
  (** [authenticode.PsSigStyle] is an integer type *)
  PsDigest : Type;
  PatchSet : Type;
  certloader_Certificate : Type;
  (** the style registry: [authenticode.GetSigStyle] and
      [authenticode.AllSigStyles] *)
  GetSigStyle : string -> option Z;
  AllSigStyles : list string;
  (** [authenticode.DigestPowershell(r, style, hash)], on the bytes the reader
      yields *)
  DigestPowershell : bytes -> Z -> crypto.Hash -> Err PsDigest;
  (** [digest.Sign(cert.Signer(), cert.Chain())] *)
  PsDigest_Sign :
    PsDigest -> certloader_Certificate -> Err pkcs7.ContentInfoSignedData;
  (** [digest.MakePatch(blob)] *)
  PsDigest_MakePatch : PsDigest -> bytes -> Err PatchSet;
  (** the timestamp-authority client of the certificate, the attaching of its
      token to the signed data, and the encoding of the signed data *)
  requestToken :
    certloader_Certificate -> pkcs7.ContentInfoSignedData ->
    Err pkcs7.ContentInfoSignedData;
  attachToken :
    pkcs7.ContentInfoSignedData -> pkcs7.ContentInfoSignedData ->
    Err pkcs7.ContentInfoSignedData;
  marshalSignedData : pkcs7.ContentInfoSignedData -> Err bytes;
  (** [authenticode.VerifyPowershell(f, style, skipDigests)], on the bytes of
      the file *)
  VerifyPowershell : bytes -> Z -> bool -> Err pkcs9.TimestampedSignature;
  (** [opts.SetBinPatch(patch)], which hands the patch set back as the result
      of the signer *)
  SignOpts_SetBinPatch : signers.SignOpts -> PatchSet -> Err bytes
}.

Module ps.
Section Facade.
Context `{Collaborators} `{SignerCollaborators}.

(** The calls a run makes into the collaborators, in order: the work that
    lies behind the style lookup. *)
Inductive Call : Type :=
| CallDigestPowershell (style : Z) (hash : crypto.Hash)
| CallSign
| CallTimestamp (psd : pkcs7.ContentInfoSignedData) (required : bool)
| CallMakePatch
| CallSetBinPatch
| CallVerifyPowershell (style : Z) (noDigests : bool).

(** A run: the calls made, and what the function returns. *)
Definition Run (A : Type) : Type := (list Call * Err A)%type.

Definition ret {A : Type} (a : A) : Run A := ([], inl a).

Definition fail {A : Type} (e : error) : Run A := ([], inr e).

(** Make the call [c], whose outcome is [r]. *)
Definition call {A : Type} (c : Call) (r : Err A) : Run A := ([c], r).

(** [x, err := m; if err != nil { return nil, err }; k x] *)
Definition bind {A B : Type} (m : Run A) (k : A -> Run B) : Run B :=
  match m with
  | (t, inl a) => let '(t', r) := k a in ((t ++ t')%list, r)
  | (t, inr e) => (t, inr e)
  end.

Notation "x <~ m ;; k" := (bind m (fun x => k))
  (at level 100, m at next level, k at level 200, right associativity).

(** [os.File]: its name and the bytes it holds. *)
Record File := {
  Name : string;
  Contents : bytes
}.

(** Modelled from the spec: [pkcs.Timestamp] of signers/pkcs, which is not
    among the sources: [attachTimestamp(SignedBlob,
    timestampAuthorityClient, required bool) -> (SignedBlob, error)]
    requests a token and attaches it ([stamp]); "if [required] is false and the
    timestamp request fails, logs/returns the unstamped blob rather than
    failing the whole operation; if [required] is true, failure
    propagates". *)
Definition stamp (psd : pkcs7.ContentInfoSignedData)
    (cert : certloader_Certificate) : Err pkcs7.ContentInfoSignedData :=
  token <-? requestToken cert psd;
  attachToken psd token.

Definition Timestamp (psd : pkcs7.ContentInfoSignedData)
    (cert : certloader_Certificate) (opts : signers.SignOpts)
    (required : bool) : Err bytes :=
  match stamp psd cert with
  | inl stamped => marshalSignedData stamped
  | inr err => if required then inr err else marshalSignedData psd
  end.

(** [getStyle] *)
Definition getStyle (name : string) : Err Z :=
  match GetSigStyle name with
  | None =>
      inr (errorString ("unknown powershell style, expected: "
                        ++ String.concat " " AllSigStyles))
  | Some style => inl style
  end.

(** The error [getStyle] returns. *)
Definition unknownStyle : error :=
  errorString ("unknown powershell style, expected: "
               ++ String.concat " " AllSigStyles).

(** [testPath] *)
Definition testPath (filepath : string) : bool :=
  match GetSigStyle filepath with Some _ => true | None => false end.

(** [sign] *)
Definition sign (r : bytes) (cert : certloader_Certificate)
    (opts : signers.SignOpts) : Run bytes :=
  let '(argStyle, _) :=
    signers.FlagSet_GetString (signers.Flags opts) "ps-style" in
  let argStyle := if decide (argStyle = "") then signers.Path opts
                  else argStyle in
  match getStyle argStyle with
  | inr err => fail err
  | inl style =>
      digest <~ call (CallDigestPowershell style (signers.Hash opts))
                  (DigestPowershell r style (signers.Hash opts));;
      psd <~ call CallSign (PsDigest_Sign digest cert);;
      blob <~ call (CallTimestamp psd true) (Timestamp psd cert opts true);;
      patch <~ call CallMakePatch (PsDigest_MakePatch digest blob);;
      call CallSetBinPatch (SignOpts_SetBinPatch opts patch)
  end.

(** [verify] *)
Definition verify (f : File) (opts : signers.VerifyOpts)
    : Run (list signers.Signature) :=
  match getStyle (Name f) with
  | inr err => fail err
  | inl style =>
      ts <~ call (CallVerifyPowershell style (signers.NoDigests opts))
              (VerifyPowershell (Contents f) style (signers.NoDigests opts));;
      let hash :=
        fst (PkixDigestToHash
               (pkcs7.DigestAlgorithm
                  (pkcs7.Sig_SignerInfo (pkcs9.TS_Signature ts)))) in
      ret [ {| signers.Sig_Hash := hash; signers.X509Signature := ts |} ]
  end.

End Facade.
End ps.


(** ** A small concrete world

    One implementation of the collaborators, on which the definitions run:
    a one-byte-tagged attribute codec, a digest that reverses its input, a
    signature check that compares the signature with the signed bytes, and a
    path builder that accepts a certificate found among the roots, inside its
    validity window and fit for the usages asked for. *)

Module demo.
Import pkcs7.

#[global] Instance ExtKeyUsage_eq_dec : EqDecision x509.ExtKeyUsage.
Proof. solve_decision. Defined.

#[global] Instance Certificate_eq_dec : EqDecision x509.Certificate.
Proof. solve_decision. Defined.

Definition sha256 : pkix.AlgorithmIdentifier :=
  {| pkix.Algorithm := [2; 16; 840; 1; 101; 3; 4; 2; 1]; pkix.Parameters := [] |}.

Definition oidTimeStampToken : ObjectIdentifier :=
  [1; 2; 840; 113549; 1; 9; 16; 2; 14].
Definition oidSpcTimeStampToken : ObjectIdentifier :=
  [1; 3; 6; 1; 4; 1; 311; 3; 3; 1].
Definition oidCounterSign : ObjectIdentifier := [1; 2; 840; 113549; 1; 9; 6].
Definition oidSigningTime : ObjectIdentifier := [1; 2; 840; 113549; 1; 9; 5].

(** The timestamp authority's certificate and the signer's. *)
Definition tsaCert : x509.Certificate :=
  {| x509.Raw := [Byte.x74];
     x509.NotBefore := 100; x509.NotAfter := 200;
     x509.ExtKeyUsages := [x509.ExtKeyUsageTimeStamping] |}.

Definition leafCert : x509.Certificate :=
  {| x509.Raw := [Byte.x6c];
     x509.NotBefore := 100; x509.NotAfter := 200;
     x509.ExtKeyUsages := [x509.ExtKeyUsageCodeSigning] |}.

(** A time is one byte; the byte 0x00 is Go's zero time. *)
Definition decodeTime (b : bytes) : Time + string :=
  match b with
  | [t] => inl (Z.of_N (Byte.to_N t))
  | _ => inr "asn1: structure error: time"
  end.

(** The signing-time attribute of a nested signer: none for the byte 0xff. *)
Definition signedAttributes (t : Byte.byte) : AttributeList :=
  if decide (t = Byte.xff) then []
  else [ {| Type_ := oidSigningTime; Values := [t] |} ].

Definition nestedSigner (t : Byte.byte) (signature : bytes) : SignerInfo :=
  {| Version := 1;
     DigestAlgorithm := sha256;
     AuthenticatedAttributes := signedAttributes t;
     DigestEncryptionAlgorithm := sha256;
     EncryptedDigest := signature;
     UnauthenticatedAttributes := [] |}.

(** A bare signer: tag 0x30, the signing-time byte, the signature. *)
Definition decodeSignerInfo (b : bytes) : SignerInfo + string :=
  match b with
  | Byte.x30 :: t :: signature => inl (nestedSigner t signature)
  | _ => inr "asn1: structure error: SignerInfo"
  end.

(** A token with [n] signers of signing time [t] over the payload
    [imprint], which stands for the TSTInfo and its imprint at once. *)
Definition token (n t : Byte.byte) (imprint : bytes) : ContentInfoSignedData :=
  {| CISD_ContentType := [1; 2; 840; 113549; 1; 7; 2];
     CISD_Content :=
       {| SD_ContentInfo :=
            {| ContentType := [1; 2; 840; 113549; 1; 9; 16; 1; 4];
               Content := imprint |};
          Certificates := [];
          SignerInfos :=
            repeat (nestedSigner t imprint) (N.to_nat (Byte.to_N n)) |} |}.

(** Its encoding: tag 0x31, the number of signers, their signing-time byte,
    the payload. *)
Definition decodeSignedData (b : bytes) : ContentInfoSignedData + string :=
  match b with
  | Byte.x31 :: n :: t :: imprint => inl (token n t imprint)
  | _ => inr "asn1: structure error: SignedData"
  end.

Definition unpack (tst : ContentInfoSignedData) : Err pkcs9types.TSTInfo :=
  inl {| pkcs9types.Policy := [];
         pkcs9types.TSTInfo_MessageImprint :=
           {| pkcs9types.HashAlgorithm := sha256;
              pkcs9types.HashedMessage := Content (SD_ContentInfo (CISD_Content tst)) |};
         pkcs9types.GenTime := 0 |}.

Definition checkSignature (si : SignerInfo) (content : bytes)
    (skipDigests : bool) (certs : list x509.Certificate)
    : Err x509.Certificate :=
  if decide (EncryptedDigest si = content) then inl tsaCert
  else inr (errorString "pkcs7: invalid signature").

Definition fits (c : x509.Certificate) (u : x509.ExtKeyUsage) : bool :=
  bool_decide (u = x509.ExtKeyUsageAny) || bool_decide (u ∈ x509.ExtKeyUsages c).

Definition chains (c : x509.Certificate) (intermediates roots : x509.CertPool)
    (usages : list x509.ExtKeyUsage) (t : Time) : option error :=
  if (t <? x509.NotBefore c) || (x509.NotAfter c <? t)
  then Some (errorString "x509: certificate has expired or is not yet valid")
  else if negb (forallb (fits c) usages)
  then Some (errorString "x509: certificate specifies an incompatible key usage")
  else if bool_decide (c ∈ roots) then None
  else Some (errorString "x509: certificate signed by unknown authority").

Definition world : Collaborators :=
  {| OidAttributeTimeStampToken := oidTimeStampToken;
     OidSpcTimeStampToken := oidSpcTimeStampToken;
     OidAttributeCounterSign := oidCounterSign;
     OidAttributeSigningTime := oidSigningTime;
     ErrNoAttribute_Error := fun _ => "attribute not found";
     unmarshalSignedData := decodeSignedData;
     unmarshalSignerInfo := decodeSignerInfo;
     unmarshalTime := decodeTime;
     RawCertificates_Parse := fun _ => inl [];
     ContentInfo_Bytes := fun ci => inl (Content ci);
     UnpackTokenInfo := unpack;
     digestOf := fun _ data => Some (rev data);
     ErrDigestCheck := errorString "pkcs9: digest check failed";
     PkixDigestToHash := fun alg =>
       if decide (pkix.Algorithm alg = pkix.Algorithm sha256)
       then (5%N, true) else (0%N, false);
     SignerInfo_Verify := checkSignature;
     buildChains := chains |}.

(** The parent signature: signature bytes 0a 0b, and the unauthenticated
    attributes given. *)
Definition parent (unauth : AttributeList) : Signature :=
  {| Sig_SignerInfo :=
       {| Version := 1;
          DigestAlgorithm := sha256;
          AuthenticatedAttributes := [];
          DigestEncryptionAlgorithm := sha256;
          EncryptedDigest := [Byte.x0a; Byte.x0b];
          UnauthenticatedAttributes := unauth |};
     Sig_Certificate := leafCert;
     Intermediates := [] |}.

(** A token attribute of type [oid] with [n] signers of signing time [t] over
    the imprint [imprint]. *)
Definition tokenAttribute (oid : ObjectIdentifier) (n t : Byte.byte)
    (imprint : bytes) : Attribute :=
  {| Type_ := oid; Values := Byte.x31 :: n :: t :: imprint |}.

(** A counter-signature attribute with signing time [t] and signature
    [signature]. *)
Definition counterSignAttribute (t : Byte.byte) (signature : bytes)
    : Attribute :=
  {| Type_ := oidCounterSign; Values := Byte.x30 :: t :: signature |}.

(** The signer's collaborators: a registry of three names, a digest that
    reverses the script, a signature that carries the digest, and a timestamp
    authority that answers when the certificate says so. *)
Definition signedData (signature : bytes) : ContentInfoSignedData :=
  {| CISD_ContentType := [1; 2; 840; 113549; 1; 7; 2];
     CISD_Content :=
       {| SD_ContentInfo := {| ContentType := []; Content := [] |};
          Certificates := [];
          SignerInfos := [nestedSigner Byte.xff signature] |} |}.

Definition registry : gmap string Z :=
  list_to_map [("script.ps1", 1); ("ps1", 1); ("ps1xml", 2)].

Definition signerWorld : SignerCollaborators :=
  {| PsDigest := bytes;
     PatchSet := bytes;
     certloader_Certificate := bool;
     GetSigStyle := fun name => registry !! name;
     AllSigStyles := ["ps1"; "ps1xml"];
     DigestPowershell := fun r _ _ => inl (rev r);
     PsDigest_Sign := fun digest _ => inl (signedData digest);
     PsDigest_MakePatch := fun _ blob => inl blob;
     requestToken := fun reachable psd =>
       if reachable then inl psd
       else inr (errorString "timestamp request failed");
     attachToken := fun psd _ => inl psd;
     marshalSignedData := fun psd =>
       inl (flat_map EncryptedDigest (SignerInfos (CISD_Content psd)));
     VerifyPowershell := fun _ _ _ =>
       inl {| pkcs9.TS_Signature := parent [];
              pkcs9.TS_CounterSignature := None |};
     SignOpts_SetBinPatch := fun _ patch => inl patch |}.

Definition optsFor (path : string) (flags : list (string * string))
    : signers.SignOpts :=
  {| signers.Path := path; signers.Hash := 5%N;
     signers.Flags := list_to_map flags |}.

(** *** Inputs *)

(** The digest of the parent's signature bytes 0a 0b in this world. *)
Definition imprintOfParent : bytes := [Byte.x0b; Byte.x0a].

(** A standard token with signing time 5 next to an authenticode token with
    signing time 9 and a counter-signature with signing time 7. *)
Definition sigBoth : Signature :=
  parent [ tokenAttribute oidSpcTimeStampToken Byte.x01 Byte.x09 imprintOfParent;
           counterSignAttribute Byte.x07 [Byte.x0a; Byte.x0b];
           tokenAttribute oidTimeStampToken Byte.x01 Byte.x05 imprintOfParent ].

(** A token whose imprint is not the digest of the parent's signature. *)
Definition sigBadImprint : Signature :=
  parent [ tokenAttribute oidTimeStampToken Byte.x01 Byte.x05
             [Byte.x0a; Byte.x0a] ].

(** A token with two SignerInfos, and one with none. *)
Definition sigTwoSigners : Signature :=
  parent [ tokenAttribute oidSpcTimeStampToken Byte.x02 Byte.x05 imprintOfParent ].

Definition sigNoSigner : Signature :=
  parent [ tokenAttribute oidTimeStampToken Byte.x00 Byte.x05 imprintOfParent ].

(** No timestamp attribute at all. *)
Definition sigPlain : Signature := parent [].

(** A legacy counter-signature with signing time 7. *)
Definition sigLegacy : Signature :=
  parent [ counterSignAttribute Byte.x07 [Byte.x0a; Byte.x0b] ].

Definition csLegacy : pkcs9.CounterSignature :=
  {| pkcs9.Signature :=
       {| Sig_SignerInfo := nestedSigner Byte.x07 [Byte.x0a; Byte.x0b];
          Sig_Certificate := tsaCert;
          Intermediates := [] |};
     pkcs9.Hash := 5%N;
     pkcs9.SigningTime := 7 |}.

(** A well-formed token, imprint and signature in order, whose SignerInfo
    has no signing-time attribute. *)
Definition sigNoSigningTime : Signature :=
  parent [ tokenAttribute oidTimeStampToken Byte.x01 Byte.xff imprintOfParent ].

(** A token whose signing time is Go's zero time, and the CounterSignature
    [VerifyTimestamp] makes of it. *)
Definition sigZeroTime : Signature :=
  parent [ tokenAttribute oidTimeStampToken Byte.x01 Byte.x00 imprintOfParent ].

Definition csAt (t : Byte.byte) : pkcs9.CounterSignature :=
  {| pkcs9.Signature :=
       {| Sig_SignerInfo := nestedSigner t imprintOfParent;
          Sig_Certificate := tsaCert;
          Intermediates := [] |};
     pkcs9.Hash := 5%N;
     pkcs9.SigningTime := Z.of_N (Byte.to_N t) |}.

Definition csZeroTime : pkcs9.CounterSignature := csAt Byte.x00.

(** A CounterSignature with signing time 150, inside the validity of the
    authority's certificate. *)
Definition csInTime : pkcs9.CounterSignature := csAt Byte.x96.

Definition stamped (cs : pkcs9.CounterSignature) : pkcs9.TimestampedSignature :=
  {| pkcs9.TS_Signature := sigPlain; pkcs9.TS_CounterSignature := Some cs |}.

Definition unstamped : pkcs9.TimestampedSignature :=
  {| pkcs9.TS_Signature := sigPlain; pkcs9.TS_CounterSignature := None |}.

Definition trustRoots : x509.CertPool := [tsaCert; leafCert].

(** A standard token attribute whose value does not decode, in front of a
    sound authenticode token and a sound counter-signature. *)
Definition sigMalformedToken : Signature :=
  parent [ {| Type_ := oidTimeStampToken; Values := [Byte.x00] |};
           tokenAttribute oidSpcTimeStampToken Byte.x01 Byte.x09 imprintOfParent;
           counterSignAttribute Byte.x07 [Byte.x0a; Byte.x0b] ].

(** A sound standard token with signing time 150. *)
Definition sigInTime : Signature :=
  parent [ tokenAttribute oidTimeStampToken Byte.x01 Byte.x96 imprintOfParent ].

(** [sigLegacy] under another certificate and with other authenticated
    attributes. *)
Definition sigLegacyOtherSigner : Signature :=
  {| Sig_SignerInfo :=
       {| Version := 3;
          DigestAlgorithm := sha256;
          AuthenticatedAttributes := signedAttributes Byte.x01;
          DigestEncryptionAlgorithm := sha256;
          EncryptedDigest := [Byte.x0a; Byte.x0b];
          UnauthenticatedAttributes :=
            [ counterSignAttribute Byte.x07 [Byte.x0a; Byte.x0b] ] |};
     Sig_Certificate := tsaCert;
     Intermediates := [] |}.

End demo.


(** * Properties *)

(** ** Attribute lookup *)

Module AttributeFacts.
Import pkcs7.

Section GetOneFacts.
Context {A : Type} (unmarshal : bytes -> A + string).

Lemma GetOne_absent (l : AttributeList) (oid : ObjectIdentifier) :
  ~ carries l oid -> GetOne unmarshal l oid = inr (ErrNoAttribute oid).
Proof.
  unfold carries. induction l as [|raw rest IH]; intros Hno; simpl.
  - reflexivity.
  - destruct (decide (Type_ raw = oid)) as [Heq|Hne].
    + exfalso. apply Hno. now constructor.
    + apply IH. intros Hrest. apply Hno. now constructor 2.
Qed.

Lemma GetOne_present (l : AttributeList) (oid ID : ObjectIdentifier) :
  carries l oid -> GetOne unmarshal l oid <> inr (ErrNoAttribute ID).
Proof.
  unfold carries. induction 1 as [raw rest Heq|raw rest _ IH]; simpl.
  - rewrite decide_True by exact Heq.
    destruct (unmarshal (Values raw)); discriminate.
  - destruct (decide (Type_ raw = oid)); [|exact IH].
    destruct (unmarshal (Values raw)); discriminate.
Qed.

Lemma GetOne_only (l : AttributeList) (oid : ObjectIdentifier) :
  GetOne unmarshal (only oid l) oid = GetOne unmarshal l oid.
Proof.
  unfold only. induction l as [|raw rest IH]; simpl; [reflexivity|].
  destruct (decide (Type_ raw = oid)) as [Heq|Hne].
  - rewrite bool_decide_eq_true_2 by exact Heq. simpl.
    now rewrite decide_True by exact Heq.
  - rewrite bool_decide_eq_false_2 by exact Hne. exact IH.
Qed.

End GetOneFacts.

Lemma carries_only (l : AttributeList) (oid oid' : ObjectIdentifier) :
  carries (only oid l) oid' -> carries l oid'.
Proof.
  unfold carries, only. rewrite !List.Exists_exists.
  intros (raw & Hin & Heq). exists raw. split; [|exact Heq].
  apply List.filter_In in Hin. tauto.
Qed.

Lemma carries_only_same (l : AttributeList) (oid : ObjectIdentifier) :
  carries l oid -> carries (only oid l) oid.
Proof.
  unfold carries, only. rewrite !List.Exists_exists.
  intros (raw & Hin & Heq). exists raw. split; [|exact Heq].
  apply List.filter_In. split; [exact Hin|].
  now apply bool_decide_eq_true_2.
Qed.

Lemma carries_dec (l : AttributeList) (oid : ObjectIdentifier) :
  {carries l oid} + {~ carries l oid}.
Proof.
  unfold carries. apply List.Exists_dec. intros raw.
  destruct (decide (Type_ raw = oid)); [left|right]; assumption.
Defined.

End AttributeFacts.

(** ** VerifyTimestamp and VerifyOptionalTimestamp *)

Module TimestampFacts.
Import pkcs7 pkcs9 AttributeFacts.

Section Facts.
Context `{Collaborators}.

Implicit Types (sig : pkcs7.Signature) (tst : ContentInfoSignedData).

(** The unauthenticated attributes of the parent SignerInfo. *)
Abbreviation unauth sig := (UnauthenticatedAttributes (Sig_SignerInfo sig)).

(** The three shapes of the token lookup of lines 61-64. *)
Lemma lookupToken_standard (attrs : AttributeList) :
  carries attrs OidAttributeTimeStampToken ->
  lookupToken attrs = GetOne unmarshalSignedData attrs OidAttributeTimeStampToken.
Proof.
  intros Hstd. unfold lookupToken.
  destruct (GetOne unmarshalSignedData attrs OidAttributeTimeStampToken)
    as [tst|[ID|msg]] eqn:Hget; try reflexivity.
  now apply GetOne_present with (unmarshal := unmarshalSignedData) (ID := ID)
    in Hstd.
Qed.

Lemma lookupToken_authenticode (attrs : AttributeList) :
  ~ carries attrs OidAttributeTimeStampToken ->
  lookupToken attrs = GetOne unmarshalSignedData attrs OidSpcTimeStampToken.
Proof.
  intros Hstd. unfold lookupToken.
  now rewrite (GetOne_absent unmarshalSignedData _ _ Hstd).
Qed.

Lemma lookupToken_none (attrs : AttributeList) :
  ~ carries attrs OidAttributeTimeStampToken ->
  ~ carries attrs OidSpcTimeStampToken ->
  lookupToken attrs = inr (ErrNoAttribute OidSpcTimeStampToken).
Proof.
  intros Hstd Hspc. rewrite lookupToken_authenticode by exact Hstd.
  now apply GetOne_absent.
Qed.

(** A found token is never reported as [ErrNoAttribute]. *)
Lemma lookupToken_carried (attrs : AttributeList) (ID : ObjectIdentifier) :
  carries attrs OidAttributeTimeStampToken \/
  carries attrs OidSpcTimeStampToken ->
  lookupToken attrs <> inr (ErrNoAttribute ID).
Proof.
  intros Hc.
  destruct (carries_dec attrs OidAttributeTimeStampToken) as [Hstd|Hstd].
  - rewrite lookupToken_standard by exact Hstd. now apply GetOne_present.
  - rewrite lookupToken_authenticode by exact Hstd.
    apply GetOne_present. tauto.
Qed.

(** The token branch and the tail of the function read of the parent only
    its signature bytes and its intermediates. *)
Lemma tokenBranch_restrictTo (oid : ObjectIdentifier) sig tst :
  tokenBranch (restrictTo oid sig) tst = tokenBranch sig tst.
Proof. reflexivity. Qed.

Lemma VerifyTimestamp_found sig tst :
  lookupToken (unauth sig) = inl tst ->
  VerifyTimestamp sig = (loc <-? tokenBranch sig tst; finish loc).
Proof. intros Hfound. unfold VerifyTimestamp. now rewrite Hfound. Qed.

Lemma VerifyTimestamp_not_found sig (ID : ObjectIdentifier) :
  lookupToken (unauth sig) = inr (ErrNoAttribute ID) ->
  VerifyTimestamp sig = (loc <-? counterSignBranch sig; finish loc).
Proof. intros Hnone. unfold VerifyTimestamp. now rewrite Hnone. Qed.

Lemma VerifyTimestamp_decode_error sig (msg : string) :
  lookupToken (unauth sig) = inr (errorString msg) ->
  VerifyTimestamp sig = inr (errorString msg).
Proof. intros Herr. unfold VerifyTimestamp. now rewrite Herr. Qed.

(** [VerifyTimestamp] is determined by the outcome of the token lookup, the
    parent's signature bytes and intermediates and, when no token attribute
    is carried, the outcome of the counter-signature lookup. *)
Lemma VerifyTimestamp_token_ext sig sig' :
  lookupToken (unauth sig') = lookupToken (unauth sig) ->
  (forall ID, lookupToken (unauth sig) <> inr (ErrNoAttribute ID)) ->
  EncryptedDigest (Sig_SignerInfo sig') = EncryptedDigest (Sig_SignerInfo sig) ->
  Intermediates sig' = Intermediates sig ->
  VerifyTimestamp sig' = VerifyTimestamp sig.
Proof.
  intros Hlook Hfound Hdig Hint. unfold VerifyTimestamp. rewrite Hlook.
  destruct (lookupToken (unauth sig)) as [tst|[ID|msg]]; try reflexivity.
  - unfold tokenBranch. now rewrite Hdig, Hint.
  - now destruct (Hfound ID).
Qed.

(** C2: the timestamp attributes are consulted in a fixed order and the first
    one carried decides.  A SignerInfo that carries the RFC 3161 token
    attribute is judged by that attribute alone; one that does not but carries
    the authenticode attribute is judged by that one; only a SignerInfo
    carrying neither is judged by its counter-signature attribute.  In
    particular, with both token attributes present the result is the one the
    standard attribute alone would give. *)
Theorem VerifyTimestamp_priority sig :
  let attrs := unauth sig in
  (carries attrs OidAttributeTimeStampToken ->
     VerifyTimestamp sig =
       (tst <-? GetOne unmarshalSignedData attrs OidAttributeTimeStampToken;
        loc <-? tokenBranch sig tst;
        finish loc))
  /\ (~ carries attrs OidAttributeTimeStampToken ->
      carries attrs OidSpcTimeStampToken ->
      VerifyTimestamp sig =
        (tst <-? GetOne unmarshalSignedData attrs OidSpcTimeStampToken;
         loc <-? tokenBranch sig tst;
         finish loc))
  /\ (~ carries attrs OidAttributeTimeStampToken ->
      ~ carries attrs OidSpcTimeStampToken ->
      VerifyTimestamp sig = (loc <-? counterSignBranch sig; finish loc))
  /\ (carries attrs OidAttributeTimeStampToken ->
      carries attrs OidSpcTimeStampToken ->
      VerifyTimestamp sig =
        VerifyTimestamp (restrictTo OidAttributeTimeStampToken sig)).
Proof.
  intros attrs. subst attrs. repeat split.
  - intros Hstd.
    pose proof (lookupToken_standard _ Hstd) as Hlook.
    pose proof (fun ID => GetOne_present unmarshalSignedData _ _ ID Hstd) as Hne.
    destruct (GetOne unmarshalSignedData (unauth sig) OidAttributeTimeStampToken)
      as [tst|[ID|msg]] eqn:Hget.
    + now apply VerifyTimestamp_found.
    + now destruct (Hne ID).
    + now apply VerifyTimestamp_decode_error.
  - intros Hstd Hspc.
    pose proof (lookupToken_authenticode _ Hstd) as Hlook.
    pose proof (fun ID => GetOne_present unmarshalSignedData _ _ ID Hspc) as Hne.
    destruct (GetOne unmarshalSignedData (unauth sig) OidSpcTimeStampToken)
      as [tst|[ID|msg]] eqn:Hget.
    + now apply VerifyTimestamp_found.
    + now destruct (Hne ID).
    + now apply VerifyTimestamp_decode_error.
  - intros Hstd Hspc.
    eapply VerifyTimestamp_not_found. now apply lookupToken_none.
  - intros Hstd _. symmetry. apply VerifyTimestamp_token_ext; try reflexivity.
    + simpl. rewrite (lookupToken_standard (unauth sig) Hstd).
      rewrite (lookupToken_standard _ (carries_only_same _ _ Hstd)).
      apply GetOne_only.
    + intros ID. apply lookupToken_carried. now left.
Qed.

(** C6: a token that is found, by the standard or the authenticode attribute,
    and does not hold exactly one SignerInfo makes [VerifyTimestamp] fail with
    the error "timestamp should have exactly one SignerInfo". *)
Theorem VerifyTimestamp_exactly_one_SignerInfo sig tst :
  lookupToken (unauth sig) = inl tst ->
  length (SignerInfos (CISD_Content tst)) <> 1%nat ->
  VerifyTimestamp sig =
    inr (errorString "timestamp should have exactly one SignerInfo").
Proof.
  intros Hfound Hlen. rewrite (VerifyTimestamp_found _ _ Hfound).
  unfold tokenBranch.
  destruct (SignerInfos (CISD_Content tst)) as [|tsi [|tsi' rest]];
    simpl in *; congruence.
Qed.

(** The imprint check of line 85, in terms of the digest. *)
Lemma MessageImprint_Verify_ok (i : MessageImprint) (data : bytes) :
  MessageImprint_Verify i data = None <->
  digestOf (HashAlgorithm i) data = Some (HashedMessage i).
Proof.
  unfold MessageImprint_Verify.
  destruct (digestOf (HashAlgorithm i) data) as [digest|]; [|easy].
  destruct (decide (digest = HashedMessage i)) as [->|Hne]; [easy|].
  split; [discriminate|]. intros [= Heq]. contradiction.
Qed.

Lemma MessageImprint_Verify_mismatch (i : MessageImprint) (data : bytes) :
  digestOf (HashAlgorithm i) data <> Some (HashedMessage i) ->
  MessageImprint_Verify i data = Some ErrDigestCheck.
Proof.
  unfold MessageImprint_Verify. intros Hne.
  destruct (digestOf (HashAlgorithm i) data) as [digest|]; [|reflexivity].
  destruct (decide (digest = HashedMessage i)) as [->|_]; [|reflexivity].
  now destruct Hne.
Qed.

(** What a successful token branch has checked. *)
Lemma tokenBranch_inv sig tst (loc : Located) :
  tokenBranch sig tst = inl loc ->
  exists tsi tsicerts tstinfo verifyBlob,
    SignerInfos (CISD_Content tst) = [tsi]
    /\ RawCertificates_Parse (Certificates (CISD_Content tst)) = inl tsicerts
    /\ UnpackTokenInfo tst = inl tstinfo
    /\ MessageImprint_Verify (TSTInfo_MessageImprint tstinfo)
         (EncryptedDigest (Sig_SignerInfo sig)) = None
    /\ ContentInfo_Bytes (SD_ContentInfo (CISD_Content tst)) = inl verifyBlob
    /\ loc = (tsi,
              if negb (Nat.eqb (length tsicerts) 0)
              then (Intermediates sig ++ tsicerts)%list else Intermediates sig,
              verifyBlob,
              fst (PkixDigestToHash
                     (HashAlgorithm (TSTInfo_MessageImprint tstinfo)))).
Proof.
  unfold tokenBranch. intros Hbranch.
  destruct (SignerInfos (CISD_Content tst)) as [|tsi [|tsi' rest]] eqn:Hone;
    try discriminate.
  destruct (RawCertificates_Parse _) as [tsicerts|] eqn:Hparse;
    try discriminate.
  destruct (UnpackTokenInfo tst) as [tstinfo|] eqn:Hunpack; try discriminate.
  destruct (MessageImprint_Verify _ _) eqn:Himprint; try discriminate.
  destruct (ContentInfo_Bytes _) as [verifyBlob|] eqn:Hbytes;
    try discriminate.
  injection Hbranch as <-.
  exists tsi, tsicerts, tstinfo, verifyBlob.
  repeat split; solve [assumption | reflexivity].
Qed.

(** What a successful run of the tail of the function has checked. *)
Lemma finish_inv (loc : Located) (cs : CounterSignature) :
  finish loc = inl cs ->
  let '(tsi, certs, verifyBlob, imprintHash) := loc in
  exists cert signingTime,
    SignerInfo_Verify tsi verifyBlob false certs = inl cert
    /\ GetOne unmarshalTime (AuthenticatedAttributes tsi)
         OidAttributeSigningTime = inl signingTime
    /\ cs = {| Signature := {| Sig_SignerInfo := tsi;
                               Sig_Certificate := cert;
                               Intermediates := certs |};
               Hash := imprintHash;
               SigningTime := signingTime |}.
Proof.
  destruct loc as [[[tsi certs] verifyBlob] imprintHash]. unfold finish.
  destruct (SignerInfo_Verify tsi verifyBlob false certs) as [cert|] eqn:Hv;
    try discriminate.
  destruct (GetOne unmarshalTime _ _) as [signingTime|] eqn:Ht;
    try discriminate.
  intros [= <-]. now exists cert, signingTime.
Qed.

(** C3: for a token that is found and whose TSTInfo unpacks, the imprint is
    checked against the parent SignerInfo's encrypted digest, by digesting
    those bytes with the imprint's own algorithm.  A digest that differs from
    the imprint's hashed message makes [VerifyTimestamp] return an error
    (when the token is otherwise well-formed, the error "failed to verify
    timestamp imprint: ..."); and whenever a CounterSignature is returned the
    digest of the parent's encrypted digest equals the hashed message. *)
Theorem VerifyTimestamp_imprint sig tst (tstinfo : TSTInfo) :
  lookupToken (unauth sig) = inl tst ->
  UnpackTokenInfo tst = inl tstinfo ->
  let imprint := TSTInfo_MessageImprint tstinfo in
  let signature := EncryptedDigest (Sig_SignerInfo sig) in
  (digestOf (HashAlgorithm imprint) signature <> Some (HashedMessage imprint) ->
     (exists err, VerifyTimestamp sig = inr err)
     /\ (forall tsi tsicerts,
           SignerInfos (CISD_Content tst) = [tsi] ->
           RawCertificates_Parse (Certificates (CISD_Content tst))
             = inl tsicerts ->
           VerifyTimestamp sig =
             inr (errorString ("failed to verify timestamp imprint: "
                               ++ Error ErrDigestCheck))))
  /\ (forall cs, VerifyTimestamp sig = inl cs ->
       digestOf (HashAlgorithm imprint) signature = Some (HashedMessage imprint)).
Proof.
  intros Hfound Hunpack imprint signature.
  assert (Hok : forall cs, VerifyTimestamp sig = inl cs ->
            digestOf (HashAlgorithm imprint) signature
              = Some (HashedMessage imprint)).
  { intros cs. rewrite (VerifyTimestamp_found _ _ Hfound).
    destruct (tokenBranch sig tst) as [loc|] eqn:Hbranch; [|discriminate].
    intros _. apply tokenBranch_inv in Hbranch.
    destruct Hbranch as (tsi & tsicerts & tstinfo' & blob & _ & _ & Hu & Hi & _).
    rewrite Hunpack in Hu. injection Hu as <-.
    now apply MessageImprint_Verify_ok. }
  split; [|exact Hok]. intros Hne. split.
  - destruct (VerifyTimestamp sig) as [cs|err] eqn:Hres.
    + now destruct (Hne (Hok cs eq_refl)).
    + now exists err.
  - intros tsi tsicerts Hone Hparse.
    rewrite (VerifyTimestamp_found _ _ Hfound). unfold tokenBranch.
    rewrite Hone, Hparse, Hunpack. subst imprint signature.
    now rewrite (MessageImprint_Verify_mismatch _ _ Hne).
Qed.

(** C8: in the legacy path (no token attribute of either kind, and a
    counter-signature attribute that decodes to the SignerInfo [tsi]) the
    bytes handed to [tsi.Verify] are the parent SignerInfo's encrypted digest
    and the certificates are the parent's intermediates; the CounterSignature
    returned carries the hash that [PkixDigestToHash] gives for the parent's
    own digest algorithm. *)
Theorem VerifyTimestamp_counter_signature sig (tsi : SignerInfo) :
  let attrs := unauth sig in
  let si := Sig_SignerInfo sig in
  ~ carries attrs OidAttributeTimeStampToken ->
  ~ carries attrs OidSpcTimeStampToken ->
  GetOne unmarshalSignerInfo attrs OidAttributeCounterSign = inl tsi ->
  VerifyTimestamp sig =
    (cert <-? SignerInfo_Verify tsi (EncryptedDigest si) false
                (Intermediates sig);
     signingTime <-? GetOne unmarshalTime (AuthenticatedAttributes tsi)
                       OidAttributeSigningTime;
     inl {| Signature := {| Sig_SignerInfo := tsi;
                            Sig_Certificate := cert;
                            Intermediates := Intermediates sig |};
            Hash := fst (PkixDigestToHash (DigestAlgorithm si));
            SigningTime := signingTime |})
  /\ (forall cs, VerifyTimestamp sig = inl cs ->
       Hash cs = fst (PkixDigestToHash (DigestAlgorithm si))
       /\ SignerInfo_Verify tsi (EncryptedDigest si) false (Intermediates sig)
            = inl (Sig_Certificate (Signature cs))).
Proof.
  intros attrs si Hstd Hspc Hcs.
  assert (Heq : VerifyTimestamp sig =
            finish (tsi, Intermediates sig, EncryptedDigest si,
                    fst (PkixDigestToHash (DigestAlgorithm si)))).
  { rewrite (VerifyTimestamp_not_found sig _ (lookupToken_none _ Hstd Hspc)).
    unfold counterSignBranch. subst attrs si. now rewrite Hcs. }
  split; [exact Heq|].
  intros cs Hres. rewrite Heq in Hres. apply finish_inv in Hres.
  destruct Hres as (cert & signingTime & Hverify & _ & ->). simpl.
  now split.
Qed.

(** C7, as amended: a signature whose SignerInfo carries none of the three
    timestamp attributes makes [VerifyTimestamp] return the not-found error
    of the last lookup, [ErrNoAttribute] for the counter-signature attribute;
    it is [VerifyOptionalTimestamp] that turns this into a result without
    error and without CounterSignature. *)
Theorem VerifyTimestamp_absent sig :
  let attrs := unauth sig in
  ~ carries attrs OidAttributeTimeStampToken ->
  ~ carries attrs OidSpcTimeStampToken ->
  ~ carries attrs OidAttributeCounterSign ->
  VerifyTimestamp sig = inr (ErrNoAttribute OidAttributeCounterSign)
  /\ VerifyOptionalTimestamp sig =
       ({| TS_Signature := sig; TS_CounterSignature := None |}, None).
Proof.
  intros attrs Hstd Hspc Hcs.
  assert (Heq : VerifyTimestamp sig
                = inr (ErrNoAttribute OidAttributeCounterSign)).
  { rewrite (VerifyTimestamp_not_found sig _ (lookupToken_none _ Hstd Hspc)).
    unfold counterSignBranch.
    now rewrite (GetOne_absent unmarshalSignerInfo _ _ Hcs). }
  split; [exact Heq|]. unfold VerifyOptionalTimestamp. now rewrite Heq.
Qed.

(** C1: a token is found, it holds exactly one SignerInfo, its certificates
    parse, its imprint is the digest of the parent's encrypted digest and its
    SignerInfo verifies over the token's content, but that SignerInfo has no
    authenticated signing-time attribute.  [VerifyTimestamp] fails, with the
    [ErrNoAttribute] of the signing-time lookup; [VerifyOptionalTimestamp],
    which takes every [ErrNoAttribute] for the absence of a timestamp,
    returns no error and no CounterSignature. *)
Theorem VerifyOptionalTimestamp_missing_signing_time sig tst
    (tsi : SignerInfo) (tsicerts : list x509.Certificate) (tstinfo : TSTInfo)
    (verifyBlob : bytes) (cert : x509.Certificate) :
  let imprint := TSTInfo_MessageImprint tstinfo in
  let certs := if negb (Nat.eqb (length tsicerts) 0)
               then (Intermediates sig ++ tsicerts)%list
               else Intermediates sig in
  lookupToken (unauth sig) = inl tst ->
  SignerInfos (CISD_Content tst) = [tsi] ->
  RawCertificates_Parse (Certificates (CISD_Content tst)) = inl tsicerts ->
  UnpackTokenInfo tst = inl tstinfo ->
  digestOf (HashAlgorithm imprint) (EncryptedDigest (Sig_SignerInfo sig))
    = Some (HashedMessage imprint) ->
  ContentInfo_Bytes (SD_ContentInfo (CISD_Content tst)) = inl verifyBlob ->
  SignerInfo_Verify tsi verifyBlob false certs = inl cert ->
  ~ carries (AuthenticatedAttributes tsi) OidAttributeSigningTime ->
  VerifyTimestamp sig = inr (ErrNoAttribute OidAttributeSigningTime)
  /\ VerifyOptionalTimestamp sig =
       ({| TS_Signature := sig; TS_CounterSignature := None |}, None).
Proof.
  intros imprint certs Hfound Hone Hparse Hunpack Himprint Hbytes Hverify Htime.
  assert (Heq : VerifyTimestamp sig
                = inr (ErrNoAttribute OidAttributeSigningTime)).
  { rewrite (VerifyTimestamp_found _ _ Hfound). unfold tokenBranch.
    rewrite Hone, Hparse, Hunpack. subst imprint certs.
    rewrite (proj2 (MessageImprint_Verify_ok _ _) Himprint), Hbytes.
    unfold finish.
    now rewrite Hverify, (GetOne_absent unmarshalTime _ _ Htime). }
  split; [exact Heq|]. unfold VerifyOptionalTimestamp. now rewrite Heq.
Qed.

End Facts.
End TimestampFacts.

(** ** Chain validation *)

Module ChainFacts.
Import pkcs7 pkcs9.

Section Facts.
Context `{Collaborators}.

(** The reference time Go's verifier works with. *)
Lemma Certificate_Verify_reference_time (now : Time) (c : x509.Certificate)
    (opts : x509.VerifyOptions) :
  Certificate_Verify now c opts =
    buildChains c (x509.Intermediates opts) (x509.Roots opts)
      (x509.KeyUsages opts)
      (if time_IsZero (x509.CurrentTime opts) then now
       else x509.CurrentTime opts).
Proof. reflexivity. Qed.

(** C5, as amended: [CounterSignature.VerifyChain] validates the timestamp's
    certificate against the trust roots, over the extra certificates and the
    CounterSignature's intermediates, requiring the time-stamping usage.  The
    reference time is the CounterSignature's SigningTime, whatever the
    current time is, provided the SigningTime is not Go's zero time; a zero
    SigningTime makes the verifier fall back to the current time. *)
Theorem CounterSignature_VerifyChain_reference_time (cs : CounterSignature)
    (roots : x509.CertPool) (extraCerts : list x509.Certificate) :
  let validAt := buildChains (Sig_Certificate (Signature cs))
                   (extraCerts ++ Intermediates (Signature cs))%list roots
                   [x509.ExtKeyUsageTimeStamping] in
  (time_IsZero (SigningTime cs) = false ->
     forall now : Time,
       CounterSignature_VerifyChain now cs roots extraCerts
         = validAt (SigningTime cs))
  /\ (time_IsZero (SigningTime cs) = true ->
      forall now : Time,
        CounterSignature_VerifyChain now cs roots extraCerts = validAt now).
Proof.
  intros validAt. subst validAt.
  split; intros Hzero now; unfold CounterSignature_VerifyChain;
    rewrite Certificate_Verify_reference_time; simpl; now rewrite Hzero.
Qed.

(** C4, as amended: with a CounterSignature present, its chain is validated
    first and a failure comes back as "validating timestamp: ..."; when that
    passes, and when there is no CounterSignature, the main signature's chain
    is validated for the given usage.  Its reference time is the timestamp's
    SigningTime when a timestamp is present and that time is not Go's zero
    time, and the current time otherwise. *)
Theorem TimestampedSignature_VerifyChain_reference_time (now : Time)
    (sig : TimestampedSignature) (roots : x509.CertPool)
    (extraCerts : list x509.Certificate) (usage : x509.ExtKeyUsage) :
  let mainAt := buildChains (Sig_Certificate (TS_Signature sig))
                  (extraCerts ++ Intermediates (TS_Signature sig))%list roots
                  [usage] in
  match TS_CounterSignature sig with
  | Some cs =>
      (forall err,
         CounterSignature_VerifyChain now cs roots extraCerts = Some err ->
         TimestampedSignature_VerifyChain now sig roots extraCerts usage
           = Some (errorString ("validating timestamp: " ++ Error err)))
      /\ (CounterSignature_VerifyChain now cs roots extraCerts = None ->
          TimestampedSignature_VerifyChain now sig roots extraCerts usage
            = mainAt (if time_IsZero (SigningTime cs) then now
                      else SigningTime cs))
  | None =>
      TimestampedSignature_VerifyChain now sig roots extraCerts usage
        = mainAt now
  end.
Proof.
  intros mainAt. subst mainAt. unfold TimestampedSignature_VerifyChain.
  destruct (TS_CounterSignature sig) as [cs|].
  - split.
    + intros err ->. reflexivity.
    + intros ->. reflexivity.
  - reflexivity.
Qed.

End Facts.
End ChainFacts.

(** ** The signer facade *)

Module FacadeFacts.
Import ps.

Section Facts.
Context `{Collaborators} `{SignerCollaborators}.

Lemma getStyle_unresolved (name : string) :
  GetSigStyle name = None -> getStyle name = inr unknownStyle.
Proof. unfold getStyle. now intros ->. Qed.

Lemma getStyle_resolved (name : string) (style : Z) :
  GetSigStyle name = Some style -> getStyle name = inl style.
Proof. unfold getStyle. now intros ->. Qed.

(** C9: the name the registry is asked for is, when signing, the value of the
    flag ps-style or, that being empty, the path of the artifact, and when
    verifying the name of the file.  If the registry does not resolve it,
    [sign] and [verify] return the error of [getStyle] and have made no call
    at all: nothing was digested, signed, timestamped or verified. *)
Theorem unresolved_style_fails_first :
  (forall (r : bytes) (cert : certloader_Certificate) (opts : signers.SignOpts),
     let flag :=
       fst (signers.FlagSet_GetString (signers.Flags opts) "ps-style") in
     let name := if decide (flag = "") then signers.Path opts else flag in
     GetSigStyle name = None ->
     sign r cert opts = ([], inr unknownStyle))
  /\ (forall (f : File) (opts : signers.VerifyOpts),
      GetSigStyle (Name f) = None ->
      verify f opts = ([], inr unknownStyle)).
Proof.
  split.
  - intros r cert opts flag name Hnone. unfold sign. subst name flag.
    destruct (signers.FlagSet_GetString _ _) as [argStyle ignored].
    simpl in Hnone. now rewrite (getStyle_unresolved _ Hnone).
  - intros f opts Hnone. unfold verify.
    now rewrite (getStyle_unresolved _ Hnone).
Qed.

(** The model of the timestamping step, with the flag set. *)
Lemma Timestamp_required (psd : pkcs7.ContentInfoSignedData)
    (cert : certloader_Certificate) (opts : signers.SignOpts) :
  Timestamp psd cert opts true =
    (stamped <-? stamp psd cert; marshalSignedData stamped).
Proof. unfold Timestamp. now destruct (stamp psd cert). Qed.

(** Membership in the short traces of the facade, by cases. *)
Ltac trace_cases :=
  repeat match goal with
         | Hin : False |- _ => destruct Hin
         | Hin : In _ [] |- _ => destruct Hin
         | Hin : In _ (_ :: _) |- _ =>
             destruct Hin as [Hin|Hin]; [try discriminate Hin|]
         | Hin : _ \/ _ |- _ =>
             destruct Hin as [Hin|Hin]; [try discriminate Hin|]
         end.

(** C10: every call [sign] makes to the timestamping step has the flag
    [true]; if for the signed data of that call the token cannot be obtained
    or cannot be attached, [sign] returns that error; and [sign] never
    returns a result without the timestamp having been obtained and
    attached. *)
Theorem sign_timestamp_is_required (r : bytes) (cert : certloader_Certificate)
    (opts : signers.SignOpts) :
  (forall (psd : pkcs7.ContentInfoSignedData) (required : bool),
     In (CallTimestamp psd required) (fst (sign r cert opts)) ->
     required = true
     /\ forall err, stamp psd cert = inr err ->
                    snd (sign r cert opts) = inr err)
  /\ (forall out : bytes,
       snd (sign r cert opts) = inl out ->
       exists psd stamped,
         In (CallTimestamp psd true) (fst (sign r cert opts))
         /\ stamp psd cert = inl stamped).
Proof.
  unfold sign.
  destruct (signers.FlagSet_GetString _ _) as [argStyle ignored].
  destruct (getStyle _) as [style|e]; simpl;
    [|split; [tauto|discriminate]].
  destruct (DigestPowershell r style (signers.Hash opts)) as [digest|e];
    simpl; [|split; [intros psd required Hin; now trace_cases|discriminate]].
  destruct (PsDigest_Sign digest cert) as [psd'|e];
    simpl; [|split; [intros psd required Hin; now trace_cases|discriminate]].
  rewrite Timestamp_required.
  assert (Hcalled : forall (res : Err bytes) t,
            (forall err, stamp psd' cert = inr err -> res = inr err) ->
            forall psd required,
              In (CallTimestamp psd required)
                 (CallDigestPowershell style (signers.Hash opts)
                  :: CallSign :: CallTimestamp psd' true :: t) ->
              (forall c, In c t -> forall p b, c <> CallTimestamp p b) ->
              required = true
              /\ forall err, stamp psd cert = inr err -> res = inr err).
  { intros res t Hres psd required Hin Ht.
    destruct Hin as [Hin|[Hin|[Hin|Hin]]]; try discriminate Hin.
    - injection Hin as Hpsd Hreq. subst psd required. now split.
    - now destruct (Ht _ Hin psd required). }
  destruct (stamp psd' cert) as [stamped|e] eqn:Hstamp; simpl.
  - destruct (marshalSignedData stamped) as [blob|e]; simpl.
    + destruct (PsDigest_MakePatch digest blob) as [patch|e]; simpl.
      * destruct (SignOpts_SetBinPatch opts patch) as [out|e]; simpl.
        -- split.
           ++ intros psd required Hin.
              apply (Hcalled _ [CallMakePatch; CallSetBinPatch]);
                [discriminate|exact Hin|].
              intros c Hc p b. now trace_cases; subst c.
           ++ intros out' _. exists psd', stamped.
              split; [|exact Hstamp]. right. right. left. reflexivity.
        -- split; [|discriminate].
           intros psd required Hin.
           apply (Hcalled _ [CallMakePatch; CallSetBinPatch]);
             [discriminate|exact Hin|].
           intros c Hc p b. now trace_cases; subst c.
      * split; [|discriminate].
        intros psd required Hin.
        apply (Hcalled _ [CallMakePatch]); [discriminate|exact Hin|].
        intros c Hc p b. now trace_cases; subst c.
    + split; [|discriminate].
      intros psd required Hin.
      apply (Hcalled _ []); [discriminate|exact Hin|].
      intros c Hc p b. now trace_cases.
  - split; [|discriminate].
    intros psd required Hin.
    apply (Hcalled _ []); [now intros err [= ->]|exact Hin|].
    intros c Hc p b. now trace_cases.
Qed.


End Facts.
End FacadeFacts.

(** ** The theorems at work on the concrete world *)

Module Runs.
Import pkcs7 pkcs9 demo.

(** The standard token (signing time 5) wins over the authenticode token
    (signing time 9) that precedes it in the list. *)
Example VerifyTimestamp_sigBoth :
  @VerifyTimestamp world sigBoth = inl (csAt Byte.x05).
Proof. reflexivity. Qed.

Example VerifyTimestamp_sigLegacy :
  @VerifyTimestamp world sigLegacy = inl csLegacy.
Proof. reflexivity. Qed.

(** A token with the signing time [00010101000000Z] yields a CounterSignature
    whose SigningTime is Go's zero time. *)
Example VerifyTimestamp_sigZeroTime :
  @VerifyTimestamp world sigZeroTime = inl csZeroTime.
Proof. reflexivity. Qed.

Lemma not_carries_nil (oid : ObjectIdentifier) : ~ carries [] oid.
Proof. unfold carries. intros Hc. inversion Hc. Qed.

(** C2, witness: both token attributes are carried, and the result is the one
    of the standard attribute alone. *)
Lemma VerifyTimestamp_priority_witness :
  carries (UnauthenticatedAttributes (Sig_SignerInfo sigBoth)) oidTimeStampToken
  /\ carries (UnauthenticatedAttributes (Sig_SignerInfo sigBoth))
       oidSpcTimeStampToken
  /\ @VerifyTimestamp world sigBoth
     = @VerifyTimestamp world (restrictTo oidTimeStampToken sigBoth).
Proof.
  assert (Hstd : carries (UnauthenticatedAttributes (Sig_SignerInfo sigBoth))
                   oidTimeStampToken).
  { unfold carries. simpl. do 2 constructor 2. constructor. reflexivity. }
  assert (Hspc : carries (UnauthenticatedAttributes (Sig_SignerInfo sigBoth))
                   oidSpcTimeStampToken).
  { unfold carries. simpl. constructor. reflexivity. }
  split; [exact Hstd|]. split; [exact Hspc|].
  exact (proj2 (proj2 (proj2
           (@TimestampFacts.VerifyTimestamp_priority world sigBoth)))
           Hstd Hspc).
Defined.

(** C6, witness: a token with two SignerInfos. *)
Lemma VerifyTimestamp_exactly_one_SignerInfo_witness :
  @lookupToken world (UnauthenticatedAttributes (Sig_SignerInfo sigTwoSigners))
  = inl (token Byte.x02 Byte.x05 imprintOfParent)
  /\ length (SignerInfos
               (CISD_Content (token Byte.x02 Byte.x05 imprintOfParent)))
     = 2%nat
  /\ @VerifyTimestamp world sigTwoSigners
     = inr (errorString "timestamp should have exactly one SignerInfo").
Proof.
  split; [reflexivity|]. split; [reflexivity|].
  apply (@TimestampFacts.VerifyTimestamp_exactly_one_SignerInfo world
           sigTwoSigners (token Byte.x02 Byte.x05 imprintOfParent)).
  - reflexivity.
  - simpl. lia.
Defined.

(** C3, witness: the imprint 0a 0a is not the digest 0b 0a of the parent's
    signature bytes. *)
Lemma VerifyTimestamp_imprint_witness :
  (@digestOf world sha256 (EncryptedDigest (Sig_SignerInfo sigBadImprint))
     <> Some [Byte.x0a; Byte.x0a])
  /\ (exists err, @VerifyTimestamp world sigBadImprint = inr err)
  /\ @VerifyTimestamp world sigBadImprint
     = inr (errorString
              "failed to verify timestamp imprint: pkcs9: digest check failed").
Proof.
  assert (Hne : @digestOf world sha256
                  (EncryptedDigest (Sig_SignerInfo sigBadImprint))
                <> Some [Byte.x0a; Byte.x0a]) by (simpl; discriminate).
  split; [exact Hne|].
  pose proof (@TimestampFacts.VerifyTimestamp_imprint world sigBadImprint
                _ _ eq_refl eq_refl) as [Hbad _].
  specialize (Hbad Hne). destruct Hbad as [Herr Hexact].
  split; [exact Herr|].
  exact (Hexact _ _ eq_refl eq_refl).
Defined.

(** C8, witness: the legacy counter-signature of [sigLegacy]. *)
Lemma VerifyTimestamp_counter_signature_witness :
  @VerifyTimestamp world sigLegacy = inl csLegacy
  /\ Hash csLegacy
     = fst (@PkixDigestToHash world
              (DigestAlgorithm (Sig_SignerInfo sigLegacy)))
  /\ @SignerInfo_Verify world (nestedSigner Byte.x07 [Byte.x0a; Byte.x0b])
       (EncryptedDigest (Sig_SignerInfo sigLegacy)) false
       (Intermediates sigLegacy)
     = inl (Sig_Certificate (Signature csLegacy)).
Proof.
  split; [reflexivity|].
  refine (proj2 (@TimestampFacts.VerifyTimestamp_counter_signature world
                   sigLegacy (nestedSigner Byte.x07 [Byte.x0a; Byte.x0b])
                   _ _ eq_refl) csLegacy eq_refl).
  - unfold carries. simpl. intros Hc.
    inversion Hc as [? ? Heq|? ? Hc']; [discriminate|inversion Hc'].
  - unfold carries. simpl. intros Hc.
    inversion Hc as [? ? Heq|? ? Hc']; [discriminate|inversion Hc'].
Defined.

(** C7, counterexample: a SignerInfo without any unauthenticated attribute;
    [VerifyTimestamp] returns an error. *)
Lemma VerifyTimestamp_absent_is_an_error :
  UnauthenticatedAttributes (Sig_SignerInfo sigPlain) = []
  /\ @VerifyTimestamp world sigPlain = inr (ErrNoAttribute oidCounterSign)
  /\ ~ (forall err, @VerifyTimestamp world sigPlain <> inr err).
Proof.
  split; [reflexivity|]. split; [reflexivity|].
  intros Hno. now apply (Hno (ErrNoAttribute oidCounterSign)).
Qed.

(** C7, witness of the amended statement. *)
Lemma VerifyTimestamp_absent_witness :
  @VerifyTimestamp world sigPlain = inr (ErrNoAttribute oidCounterSign)
  /\ @VerifyOptionalTimestamp world sigPlain
     = ({| TS_Signature := sigPlain; TS_CounterSignature := None |}, None).
Proof.
  apply (@TimestampFacts.VerifyTimestamp_absent world sigPlain);
    apply not_carries_nil.
Defined.

(** C1, witness: the token of [sigNoSigningTime] passes every check up to
    the signing-time lookup, and [VerifyOptionalTimestamp] reports neither an
    error nor a CounterSignature. *)
Lemma VerifyOptionalTimestamp_missing_signing_time_witness :
  @lookupToken world
     (UnauthenticatedAttributes (Sig_SignerInfo sigNoSigningTime))
  = inl (token Byte.x01 Byte.xff imprintOfParent)
  /\ AuthenticatedAttributes (nestedSigner Byte.xff imprintOfParent) = []
  /\ @VerifyTimestamp world sigNoSigningTime
     = inr (ErrNoAttribute oidSigningTime)
  /\ @VerifyOptionalTimestamp world sigNoSigningTime
     = ({| TS_Signature := sigNoSigningTime; TS_CounterSignature := None |},
        None).
Proof.
  split; [reflexivity|]. split; [reflexivity|].
  apply (@TimestampFacts.VerifyOptionalTimestamp_missing_signing_time world
           sigNoSigningTime (token Byte.x01 Byte.xff imprintOfParent)
           (nestedSigner Byte.xff imprintOfParent) []
           {| Policy := [];
              TSTInfo_MessageImprint :=
                {| HashAlgorithm := sha256; HashedMessage := imprintOfParent |};
              GenTime := 0 |}
           imprintOfParent tsaCert); try reflexivity.
  apply not_carries_nil.
Defined.

(** C5, counterexample: the CounterSignature [VerifyTimestamp] returns for
    [sigZeroTime] has Go's zero time as its SigningTime.  At that time the
    authority's certificate (valid from 100 to 200) is not yet valid, yet at
    the current time 150 [VerifyChain] accepts it: the reference time was the
    current time. *)
Lemma CounterSignature_VerifyChain_zero_time_uses_now :
  SigningTime csZeroTime = time_zero
  /\ @buildChains world (Sig_Certificate (Signature csZeroTime))
       ([] ++ Intermediates (Signature csZeroTime))%list trustRoots
       [x509.ExtKeyUsageTimeStamping] (SigningTime csZeroTime)
     = Some (errorString
               "x509: certificate has expired or is not yet valid")
  /\ @CounterSignature_VerifyChain world 150 csZeroTime trustRoots [] = None.
Proof. repeat split. Qed.

(** C5, witness of the amended statement: signing time 150, and the
    certificate, expired at any current time past 200, still passes. *)
Lemma CounterSignature_VerifyChain_reference_time_witness :
  time_IsZero (SigningTime csInTime) = false
  /\ forall now : Time,
       @CounterSignature_VerifyChain world now csInTime trustRoots [] = None.
Proof.
  split; [reflexivity|]. intros now.
  rewrite (proj1 (@ChainFacts.CounterSignature_VerifyChain_reference_time
                    world csInTime trustRoots []) eq_refl now).
  reflexivity.
Defined.

(** C4, counterexample: a timestamp is present, with Go's zero time as its
    SigningTime.  At that time the signer's certificate (valid from 100 to
    200) is not yet valid, yet at the current time 150 the chain of the main
    signature is accepted: its reference time was the current time, not the
    timestamp's signing time. *)
Lemma TimestampedSignature_VerifyChain_zero_time_uses_now :
  TS_CounterSignature (stamped csZeroTime) = Some csZeroTime
  /\ @CounterSignature_VerifyChain world 150 csZeroTime trustRoots [] = None
  /\ @buildChains world (Sig_Certificate (TS_Signature (stamped csZeroTime)))
       ([] ++ Intermediates (TS_Signature (stamped csZeroTime)))%list
       trustRoots [x509.ExtKeyUsageCodeSigning] (SigningTime csZeroTime)
     = Some (errorString
               "x509: certificate has expired or is not yet valid")
  /\ @TimestampedSignature_VerifyChain world 150 (stamped csZeroTime)
       trustRoots [] x509.ExtKeyUsageCodeSigning = None.
Proof. repeat split. Qed.

(** C4, witness of the amended statement: with the timestamp of signing time
    150 the main chain passes at the current time 1000, long after the
    signer's certificate expired; without a timestamp it fails there. *)
Lemma TimestampedSignature_VerifyChain_reference_time_witness :
  @TimestampedSignature_VerifyChain world 1000 (stamped csInTime) trustRoots
    [] x509.ExtKeyUsageCodeSigning = None
  /\ @TimestampedSignature_VerifyChain world 1000 unstamped trustRoots
       [] x509.ExtKeyUsageCodeSigning
     = Some (errorString
               "x509: certificate has expired or is not yet valid").
Proof.
  split.
  - rewrite (proj2 (@ChainFacts.TimestampedSignature_VerifyChain_reference_time
                      world 1000 (stamped csInTime) trustRoots []
                      x509.ExtKeyUsageCodeSigning) eq_refl).
    reflexivity.
  - rewrite (@ChainFacts.TimestampedSignature_VerifyChain_reference_time
               world 1000 unstamped trustRoots []
               x509.ExtKeyUsageCodeSigning).
    reflexivity.
Defined.

(** A timestamp whose own chain fails is reported under the timestamp's
    name. *)
Example TimestampedSignature_VerifyChain_wraps :
  @TimestampedSignature_VerifyChain world 150 (stamped csInTime) [leafCert]
    [] x509.ExtKeyUsageCodeSigning
  = Some (errorString
            "validating timestamp: x509: certificate signed by unknown authority").
Proof. reflexivity. Qed.

(** C9, witness: the path notes.txt without a flag, the flag value bogus
    next to a path the registry knows, and the file name notes.txt. *)
Lemma unresolved_style_fails_first_witness :
  @ps.sign signerWorld [Byte.x01; Byte.x02] true (optsFor "notes.txt" [])
  = ([], inr (errorString "unknown powershell style, expected: ps1 ps1xml"))
  /\ @ps.sign signerWorld [Byte.x01; Byte.x02] true
       (optsFor "script.ps1" [("ps-style", "bogus")])
     = ([], inr (errorString "unknown powershell style, expected: ps1 ps1xml"))
  /\ @ps.verify world signerWorld
       {| ps.Name := "notes.txt"; ps.Contents := [] |}
       {| signers.NoDigests := false |}
     = ([], inr (errorString "unknown powershell style, expected: ps1 ps1xml")).
Proof.
  pose proof (@FacadeFacts.unresolved_style_fails_first world signerWorld)
    as [Hsign Hverify].
  split; [|split].
  - apply Hsign. vm_compute. reflexivity.
  - apply Hsign. vm_compute. reflexivity.
  - apply Hverify. vm_compute. reflexivity.
Defined.

(** The explicit style decides even when the path is unknown to the
    registry. *)
Example sign_explicit_style :
  snd (@ps.sign signerWorld [Byte.x01; Byte.x02] true
         (optsFor "notes.txt" [("ps-style", "ps1")]))
  = inl [Byte.x02; Byte.x01].
Proof. vm_compute. reflexivity. Qed.

(** C10, witness: the timestamp authority does not answer; the step is
    called with [true] and [sign] fails with the error of the request. *)
Lemma sign_timestamp_is_required_witness :
  In (ps.CallTimestamp (signedData [Byte.x02; Byte.x01]) true)
     (fst (@ps.sign signerWorld [Byte.x01; Byte.x02] false
             (optsFor "script.ps1" [])))
  /\ @ps.stamp signerWorld (signedData [Byte.x02; Byte.x01]) false
     = inr (errorString "timestamp request failed")
  /\ snd (@ps.sign signerWorld [Byte.x01; Byte.x02] false
            (optsFor "script.ps1" []))
     = inr (errorString "timestamp request failed").
Proof.
  assert (Hcall :
    In (ps.CallTimestamp (signedData [Byte.x02; Byte.x01]) true)
       (fst (@ps.sign signerWorld [Byte.x01; Byte.x02] false
               (optsFor "script.ps1" [])))).
  { vm_compute. right. right. left. reflexivity. }
  split; [exact Hcall|]. split; [reflexivity|].
  apply (proj2 (proj1 (@FacadeFacts.sign_timestamp_is_required signerWorld
                         [Byte.x01; Byte.x02] false (optsFor "script.ps1" []))
                  _ _ Hcall)).
  reflexivity.
Defined.

End Runs.

(** * Further properties of the two files *)

(** ** What VerifyTimestamp returns, reads and keeps *)

Module TimestampResults.
Import pkcs7 pkcs9 AttributeFacts TimestampFacts.

Section Facts.
Context `{Collaborators}.

Implicit Types (sig : pkcs7.Signature) (tst : ContentInfoSignedData).

Abbreviation unauth sig := (UnauthenticatedAttributes (Sig_SignerInfo sig)).

(** Line 80 appends the token's certificates only when there are some, which
    is the same as appending them always. *)
Lemma append_if_any {A : Type} (certs tsicerts : list A) :
  (if negb (Nat.eqb (length tsicerts) 0) then (certs ++ tsicerts)%list
   else certs) = (certs ++ tsicerts)%list.
Proof. destruct tsicerts; simpl; [now rewrite List.app_nil_r|reflexivity]. Qed.

Lemma counterSignBranch_inv sig (loc : Located) :
  counterSignBranch sig = inl loc ->
  exists tsi,
    GetOne unmarshalSignerInfo (unauth sig) OidAttributeCounterSign = inl tsi
    /\ loc = (tsi, Intermediates sig, EncryptedDigest (Sig_SignerInfo sig),
              fst (PkixDigestToHash (DigestAlgorithm (Sig_SignerInfo sig)))).
Proof.
  unfold counterSignBranch.
  destruct (GetOne unmarshalSignerInfo _ _) as [tsi|] eqn:Hget;
    [|discriminate].
  intros [= <-]. now exists tsi.
Qed.

(** A CounterSignature comes out of one of the two branches, followed by the
    tail of the function. *)
Lemma VerifyTimestamp_inv sig (cs : CounterSignature) :
  VerifyTimestamp sig = inl cs ->
  exists loc,
    finish loc = inl cs
    /\ ((exists tst, lookupToken (unauth sig) = inl tst
                     /\ tokenBranch sig tst = inl loc)
        \/ (exists ID, lookupToken (unauth sig) = inr (ErrNoAttribute ID)
                       /\ counterSignBranch sig = inl loc)).
Proof.
  unfold VerifyTimestamp.
  destruct (lookupToken (unauth sig)) as [tst|[ID|msg]] eqn:Hlook.
  - destruct (tokenBranch sig tst) as [loc|] eqn:Hb; [|discriminate].
    intros Hfin. exists loc. split; [exact Hfin|]. left. now exists tst.
  - destruct (counterSignBranch sig) as [loc|] eqn:Hb; [|discriminate].
    intros Hfin. exists loc. split; [exact Hfin|]. right. now exists ID.
  - discriminate.
Qed.

(** X1: a CounterSignature that [VerifyTimestamp] returns is internally
    consistent: its certificate is the one [SignerInfo.Verify] returned for
    the CounterSignature's own SignerInfo with the CounterSignature's own
    intermediates as candidates, and its SigningTime is the signing-time
    attribute among that SignerInfo's authenticated attributes. *)
Theorem VerifyTimestamp_result_consistent sig (cs : CounterSignature) :
  VerifyTimestamp sig = inl cs ->
  let tsi := Sig_SignerInfo (Signature cs) in
  (exists verifyBlob,
     SignerInfo_Verify tsi verifyBlob false (Intermediates (Signature cs))
     = inl (Sig_Certificate (Signature cs)))
  /\ GetOne unmarshalTime (AuthenticatedAttributes tsi) OidAttributeSigningTime
     = inl (SigningTime cs).
Proof.
  intros Hres tsi. subst tsi.
  apply VerifyTimestamp_inv in Hres. destruct Hres as (loc & Hfin & _).
  destruct loc as [[[tsi certs] verifyBlob] imprintHash].
  apply finish_inv in Hfin.
  destruct Hfin as (cert & signingTime & Hverify & Htime & ->). simpl.
  split; [now exists verifyBlob|exact Htime].
Qed.

(** X2: when a token is found and a CounterSignature is returned, that
    CounterSignature holds the token's only SignerInfo, verified over the
    bytes of the token's ContentInfo; its hash is the one
    [PkixDigestToHash] gives for the imprint's algorithm, and its
    intermediates are the parent's followed by the certificates of the
    token. *)
Theorem VerifyTimestamp_token_result sig tst (cs : CounterSignature) :
  lookupToken (unauth sig) = inl tst ->
  VerifyTimestamp sig = inl cs ->
  exists tsicerts tstinfo verifyBlob,
    SignerInfos (CISD_Content tst) = [Sig_SignerInfo (Signature cs)]
    /\ RawCertificates_Parse (Certificates (CISD_Content tst)) = inl tsicerts
    /\ UnpackTokenInfo tst = inl tstinfo
    /\ ContentInfo_Bytes (SD_ContentInfo (CISD_Content tst)) = inl verifyBlob
    /\ SignerInfo_Verify (Sig_SignerInfo (Signature cs)) verifyBlob false
         (Intermediates (Signature cs))
       = inl (Sig_Certificate (Signature cs))
    /\ Hash cs = fst (PkixDigestToHash
                        (HashAlgorithm (TSTInfo_MessageImprint tstinfo)))
    /\ Intermediates (Signature cs) = (Intermediates sig ++ tsicerts)%list.
Proof.
  intros Hfound Hres. rewrite (VerifyTimestamp_found _ _ Hfound) in Hres.
  destruct (tokenBranch sig tst) as [loc|] eqn:Hb; [|discriminate].
  apply tokenBranch_inv in Hb.
  destruct Hb as (tsi & tsicerts & tstinfo & blob & Hone & Hparse & Hunpack
                  & _ & Hbytes & ->).
  apply finish_inv in Hres.
  destruct Hres as (cert & signingTime & Hverify & _ & ->). simpl.
  exists tsicerts, tstinfo, blob. rewrite append_if_any in *.
  repeat split; assumption || reflexivity.
Qed.


(** X4: an attribute that is present but does not decode is a hard error,
    not a reason to fall back.  If the standard token attribute fails to
    decode, or the standard one is not found and the authenticode one fails
    to decode, or neither is found and the counter-signature attribute fails
    to decode, [VerifyTimestamp] returns that decoding error, whatever the
    remaining attributes hold, and [VerifyOptionalTimestamp] passes it on. *)
Theorem VerifyTimestamp_no_fallback_on_decode_error sig (msg : string) :
  let attrs := unauth sig in
  GetOne unmarshalSignedData attrs OidAttributeTimeStampToken
    = inr (errorString msg)
  \/ ((exists ID, GetOne unmarshalSignedData attrs OidAttributeTimeStampToken
                  = inr (ErrNoAttribute ID))
      /\ GetOne unmarshalSignedData attrs OidSpcTimeStampToken
         = inr (errorString msg))
  \/ ((exists ID, lookupToken attrs = inr (ErrNoAttribute ID))
      /\ GetOne unmarshalSignerInfo attrs OidAttributeCounterSign
         = inr (errorString msg)) ->
  VerifyTimestamp sig = inr (errorString msg)
  /\ VerifyOptionalTimestamp sig
     = ({| TS_Signature := sig; TS_CounterSignature := None |},
        Some (errorString msg)).
Proof.
  intros attrs Hcases. subst attrs.
  assert (Heq : VerifyTimestamp sig = inr (errorString msg)).
  { destruct Hcases as [Hstd|[[[ID Hstd] Hspc]|[[ID Hnone] Hcs]]].
    - apply VerifyTimestamp_decode_error. unfold lookupToken. now rewrite Hstd.
    - apply VerifyTimestamp_decode_error. unfold lookupToken.
      now rewrite Hstd, Hspc.
    - rewrite (VerifyTimestamp_not_found _ _ Hnone). unfold counterSignBranch.
      now rewrite Hcs. }
  split; [exact Heq|]. unfold VerifyOptionalTimestamp. now rewrite Heq.
Qed.

(** X5: the three outcomes of [VerifyOptionalTimestamp].  The result always
    embeds the signature it was given; it carries a CounterSignature exactly
    when [VerifyTimestamp] returned that CounterSignature; it carries an
    error exactly when [VerifyTimestamp] failed with that error and the error
    is not an [ErrNoAttribute]; and it never carries both. *)
Theorem VerifyOptionalTimestamp_outcomes sig :
  let tsig := fst (VerifyOptionalTimestamp sig) in
  let err := snd (VerifyOptionalTimestamp sig) in
  TS_Signature tsig = sig
  /\ (forall cs, TS_CounterSignature tsig = Some cs
                 <-> VerifyTimestamp sig = inl cs)
  /\ (forall e, err = Some e
                <-> VerifyTimestamp sig = inr e
                    /\ forall ID, e <> ErrNoAttribute ID)
  /\ (err = None \/ TS_CounterSignature tsig = None).
Proof.
  unfold VerifyOptionalTimestamp.
  destruct (VerifyTimestamp sig) as [ts|[ID|msg]]; simpl.
  - split; [reflexivity|]. split; [|split; [|now left]].
    + intros cs. split; congruence.
    + intros e. split; [discriminate|]. now intros [? _].
  - split; [reflexivity|]. split; [|split; [|now left]].
    + intros cs. split; discriminate.
    + intros e. split; [discriminate|].
      intros [[= <-] Hne]. now destruct (Hne ID).
  - split; [reflexivity|]. split; [|split; [|now right]].
    + intros cs. split; discriminate.
    + intros e. split.
      * intros [= <-]. split; [reflexivity|]. discriminate.
      * now intros [[= <-] _].
Qed.

(** X6: of the parent signature [VerifyTimestamp] reads the unauthenticated
    attributes, the encrypted digest, the digest algorithm and the
    intermediates, and nothing else: two signatures that agree on these give
    the same result, whatever their certificates, authenticated attributes
    and remaining fields. *)
Theorem VerifyTimestamp_reads sig sig' :
  unauth sig' = unauth sig ->
  EncryptedDigest (Sig_SignerInfo sig') = EncryptedDigest (Sig_SignerInfo sig) ->
  DigestAlgorithm (Sig_SignerInfo sig') = DigestAlgorithm (Sig_SignerInfo sig) ->
  Intermediates sig' = Intermediates sig ->
  VerifyTimestamp sig' = VerifyTimestamp sig.
Proof.
  intros Hattrs Hdig Halg Hint. unfold VerifyTimestamp. rewrite Hattrs.
  destruct (lookupToken (unauth sig)) as [tst|[ID|msg]]; try reflexivity.
  - unfold tokenBranch. now rewrite Hdig, Hint.
  - unfold counterSignBranch. now rewrite Hattrs, Hdig, Halg, Hint.
Qed.

End Facts.
End TimestampResults.

(** ** From the timestamp to the chains *)

Module ChainComposition.
Import pkcs7 pkcs9 AttributeFacts TimestampFacts TimestampResults.

Section Facts.
Context `{Collaborators}.

Implicit Types (sig : pkcs7.Signature) (tst : ContentInfoSignedData).

Abbreviation unauth sig := (UnauthenticatedAttributes (Sig_SignerInfo sig)).

(** The time the path builder is given for a reference time [t]. *)
Abbreviation effective now t := (if time_IsZero t then now else t).

(** X7: validating the chain of a CounterSignature that [VerifyTimestamp]
    made from a token hands the path builder, as intermediates, the caller's
    extra certificates, then the parent signature's intermediates, then the
    certificates bundled in the token; for a legacy counter-signature, the
    extra certificates and the parent's intermediates.  The certificate
    validated is the one the nested SignerInfo verified against. *)
Theorem VerifyChain_after_VerifyTimestamp (now : Time) sig
    (cs : CounterSignature) (roots : x509.CertPool)
    (extraCerts : list x509.Certificate) :
  VerifyTimestamp sig = inl cs ->
  (forall tst tsicerts,
     lookupToken (unauth sig) = inl tst ->
     RawCertificates_Parse (Certificates (CISD_Content tst)) = inl tsicerts ->
     CounterSignature_VerifyChain now cs roots extraCerts
     = buildChains (Sig_Certificate (Signature cs))
         (extraCerts ++ Intermediates sig ++ tsicerts)%list roots
         [x509.ExtKeyUsageTimeStamping] (effective now (SigningTime cs)))
  /\ (forall ID,
        lookupToken (unauth sig) = inr (ErrNoAttribute ID) ->
        CounterSignature_VerifyChain now cs roots extraCerts
        = buildChains (Sig_Certificate (Signature cs))
            (extraCerts ++ Intermediates sig)%list roots
            [x509.ExtKeyUsageTimeStamping] (effective now (SigningTime cs))).
Proof.
  intros Hres. split.
  - intros tst tsicerts Hfound Hparse.
    rewrite (VerifyTimestamp_found _ _ Hfound) in Hres.
    destruct (tokenBranch sig tst) as [loc|] eqn:Hb; [|discriminate].
    apply tokenBranch_inv in Hb.
    destruct Hb as (tsi & tsicerts' & tstinfo & blob & _ & Hparse' & _ & _ & _
                    & ->).
    rewrite Hparse in Hparse'. injection Hparse' as <-.
    apply finish_inv in Hres.
    destruct Hres as (cert & signingTime & _ & _ & ->).
    unfold CounterSignature_VerifyChain, Certificate_Verify. simpl.
    now rewrite append_if_any.
  - intros ID Hnone. rewrite (VerifyTimestamp_not_found _ _ Hnone) in Hres.
    destruct (counterSignBranch sig) as [loc|] eqn:Hb; [|discriminate].
    apply counterSignBranch_inv in Hb. destruct Hb as (tsi & _ & ->).
    apply finish_inv in Hres.
    destruct Hres as (cert & signingTime & _ & _ & ->).
    reflexivity.
Qed.

(** X8: a signature without any of the three timestamp attributes goes
    through [VerifyOptionalTimestamp] without error, and the chain of the
    result is the chain of the signature's own certificate, over the extra
    certificates and its intermediates, for the usage asked for, at the
    current time. *)
Theorem unstamped_chain_at_current_time (now : Time) sig
    (roots : x509.CertPool) (extraCerts : list x509.Certificate)
    (usage : x509.ExtKeyUsage) :
  ~ carries (unauth sig) OidAttributeTimeStampToken ->
  ~ carries (unauth sig) OidSpcTimeStampToken ->
  ~ carries (unauth sig) OidAttributeCounterSign ->
  snd (VerifyOptionalTimestamp sig) = None
  /\ TimestampedSignature_VerifyChain now (fst (VerifyOptionalTimestamp sig))
       roots extraCerts usage
     = buildChains (Sig_Certificate sig)
         (extraCerts ++ Intermediates sig)%list roots [usage] now.
Proof.
  intros Hstd Hspc Hcs.
  assert (Heq : VerifyTimestamp sig
                = inr (ErrNoAttribute OidAttributeCounterSign)).
  { rewrite (VerifyTimestamp_not_found sig _ (lookupToken_none _ Hstd Hspc)).
    unfold counterSignBranch.
    now rewrite (GetOne_absent unmarshalSignerInfo _ _ Hcs). }
  unfold VerifyOptionalTimestamp. rewrite Heq. simpl. split; reflexivity.
Qed.

(** X9: a signature whose timestamp [VerifyTimestamp] accepts, with a
    signing time other than Go's zero time, and whose timestamp chain is
    valid at that signing time: the chain of the result of
    [VerifyOptionalTimestamp] is the chain of the signature's own
    certificate over its own intermediates at the timestamp's signing time,
    at whatever moment the validation runs.  If the timestamp's chain is not
    valid at the signing time, the result is that failure, under the
    timestamp's name. *)
Theorem stamped_chain_at_signing_time sig (cs : CounterSignature)
    (roots : x509.CertPool) (extraCerts : list x509.Certificate)
    (usage : x509.ExtKeyUsage) :
  VerifyTimestamp sig = inl cs ->
  time_IsZero (SigningTime cs) = false ->
  forall now : Time,
    TimestampedSignature_VerifyChain now (fst (VerifyOptionalTimestamp sig))
      roots extraCerts usage
    = match buildChains (Sig_Certificate (Signature cs))
              (extraCerts ++ Intermediates (Signature cs))%list roots
              [x509.ExtKeyUsageTimeStamping] (SigningTime cs) with
      | Some err => Some (errorString ("validating timestamp: " ++ Error err))
      | None =>
          buildChains (Sig_Certificate sig)
            (extraCerts ++ Intermediates sig)%list roots [usage]
            (SigningTime cs)
      end.
Proof.
  intros Hres Hzero now. unfold VerifyOptionalTimestamp. rewrite Hres. simpl.
  unfold TimestampedSignature_VerifyChain, CounterSignature_VerifyChain,
    Signature_VerifyChain, Certificate_Verify. simpl. rewrite Hzero.
  reflexivity.
Qed.

End Facts.
End ChainComposition.

(** ** The stages of the facade *)

Module FacadeStages.
Import ps FacadeFacts.

Section Facts.
Context `{Collaborators} `{SignerCollaborators}.

(** The name [sign] asks the registry for. *)
Abbreviation styleName opts :=
  (if decide (fst (signers.FlagSet_GetString (signers.Flags opts) "ps-style")
              = "")
   then signers.Path opts
   else fst (signers.FlagSet_GetString (signers.Flags opts) "ps-style")).

(** [sign], stage by stage. *)
Lemma sign_stages (r : bytes) (cert : certloader_Certificate)
    (opts : signers.SignOpts) :
  sign r cert opts =
    match getStyle (styleName opts) with
    | inr err => ([], inr err)
    | inl style =>
        let d := CallDigestPowershell style (signers.Hash opts) in
        match DigestPowershell r style (signers.Hash opts) with
        | inr err => ([d], inr err)
        | inl digest =>
            match PsDigest_Sign digest cert with
            | inr err => ([d; CallSign], inr err)
            | inl psd =>
                let t := CallTimestamp psd true in
                match Timestamp psd cert opts true with
                | inr err => ([d; CallSign; t], inr err)
                | inl blob =>
                    match PsDigest_MakePatch digest blob with
                    | inr err => ([d; CallSign; t; CallMakePatch], inr err)
                    | inl patch =>
                        ([d; CallSign; t; CallMakePatch; CallSetBinPatch],
                         SignOpts_SetBinPatch opts patch)
                    end
                end
            end
        end
    end.
Proof.
  unfold sign.
  destruct (signers.FlagSet_GetString _ _) as [argStyle ignored]. simpl.
  destruct (getStyle _) as [style|e]; [|reflexivity]. simpl.
  destruct (DigestPowershell r style _) as [digest|e]; [|reflexivity]. simpl.
  destruct (PsDigest_Sign digest cert) as [psd|e]; [|reflexivity]. simpl.
  destruct (Timestamp psd cert opts true) as [blob|e]; [|reflexivity]. simpl.
  destruct (PsDigest_MakePatch digest blob) as [patch|e]; [|reflexivity].
  simpl. now destruct (SignOpts_SetBinPatch opts patch).
Qed.

(** X10: [testPath] answers exactly the question [getStyle] decides.  A file
    name is refused by [testPath] if and only if [verify] fails on it with
    the unknown-style error before doing anything; and, when no style is
    given by flag, a path is refused by [testPath] if and only if [sign]
    fails on it in that way. *)
Theorem testPath_predicts_unknown_style :
  (forall name, testPath name = true <-> exists style, getStyle name = inl style)
  /\ (forall (f : File) (opts : signers.VerifyOpts),
        testPath (Name f) = false
        <-> verify f opts = ([], inr unknownStyle))
  /\ (forall (r : bytes) (cert : certloader_Certificate)
             (opts : signers.SignOpts),
        fst (signers.FlagSet_GetString (signers.Flags opts) "ps-style") = "" ->
        (testPath (signers.Path opts) = false
         <-> sign r cert opts = ([], inr unknownStyle))).
Proof.
  split; [|split].
  - intros name. unfold testPath, getStyle.
    destruct (GetSigStyle name) as [style|]; split;
      try discriminate; try reflexivity.
    + intros _. now exists style.
    + intros [style Hs]. discriminate.
  - intros f opts. unfold testPath, verify, getStyle.
    destruct (GetSigStyle (Name f)) as [style|]; simpl.
    + split; [discriminate|].
      destruct (VerifyPowershell _ _ _); discriminate.
    + split; reflexivity.
  - intros r cert opts Hflag. rewrite sign_stages, Hflag.
    rewrite decide_True by reflexivity.
    unfold testPath, getStyle.
    destruct (GetSigStyle (signers.Path opts)) as [style|]; simpl.
    + split; [discriminate|].
      destruct (DigestPowershell _ _ _) as [digest|]; [|discriminate].
      destruct (PsDigest_Sign _ _) as [psd|]; [|discriminate].
      destruct (Timestamp _ _ _ _) as [blob|]; [|discriminate].
      destruct (PsDigest_MakePatch _ _) as [patch|]; discriminate.
    + split; reflexivity.
Qed.

(** X11: [sign] returns a result exactly when the style resolves and every
    stage succeeds, each stage working on what the stage before produced:
    the digest is taken with the resolved style and the hash of the options,
    the timestamp is put on the signed data of that digest, the patch is
    made by that same digest from the timestamped blob, and the result is
    what [SetBinPatch] makes of that patch. *)
Theorem sign_succeeds_iff (r : bytes) (cert : certloader_Certificate)
    (opts : signers.SignOpts) (out : bytes) :
  snd (sign r cert opts) = inl out
  <-> exists style digest psd blob patch,
        GetSigStyle (styleName opts) = Some style
        /\ DigestPowershell r style (signers.Hash opts) = inl digest
        /\ PsDigest_Sign digest cert = inl psd
        /\ Timestamp psd cert opts true = inl blob
        /\ PsDigest_MakePatch digest blob = inl patch
        /\ SignOpts_SetBinPatch opts patch = inl out.
Proof.
  rewrite sign_stages. unfold getStyle. split.
  - destruct (GetSigStyle (styleName opts)) as [style|]; [|discriminate].
    simpl.
    destruct (DigestPowershell _ _ _) as [digest|] eqn:Hd; [|discriminate].
    destruct (PsDigest_Sign _ _) as [psd|] eqn:Hs; [|discriminate].
    destruct (Timestamp _ _ _ _) as [blob|] eqn:Ht; [|discriminate].
    destruct (PsDigest_MakePatch _ _) as [patch|] eqn:Hm; [|discriminate].
    simpl. intros Hout. now exists style, digest, psd, blob, patch.
  - intros (style & digest & psd & blob & patch & Hg & Hd & Hs & Ht & Hm & Ho).
    now rewrite Hg, Hd, Hs, Ht, Hm.
Qed.


(** X13: when [verify] returns signatures it returns exactly one.  Its
    X509Signature is the timestamped signature [VerifyPowershell] produced
    for the contents of the file, with the style of the file's name and the
    NoDigests option; its Hash is what [PkixDigestToHash] gives for the
    signer's digest algorithm, also when that conversion reports failure. *)
Theorem verify_returns_one_signature (f : File) (opts : signers.VerifyOpts)
    (sigs : list signers.Signature) :
  snd (verify f opts) = inl sigs ->
  exists style ts,
    GetSigStyle (Name f) = Some style
    /\ VerifyPowershell (Contents f) style (signers.NoDigests opts) = inl ts
    /\ fst (verify f opts)
       = [CallVerifyPowershell style (signers.NoDigests opts)]
    /\ sigs = [ {| signers.Sig_Hash :=
                     fst (PkixDigestToHash
                            (pkcs7.DigestAlgorithm
                               (pkcs7.Sig_SignerInfo (pkcs9.TS_Signature ts))));
                   signers.X509Signature := ts |} ].
Proof.
  unfold verify, getStyle.
  destruct (GetSigStyle (Name f)) as [style|]; [|discriminate]. simpl.
  destruct (VerifyPowershell _ _ _) as [ts|] eqn:Hv; [|discriminate]. simpl.
  intros [= <-]. now exists style, ts.
Qed.

End Facts.
End FacadeStages.

(** ** The further properties at work on the concrete world *)

Module MoreRuns.
Import pkcs7 pkcs9 demo.

Example VerifyTimestamp_sigInTime :
  @VerifyTimestamp world sigInTime = inl csInTime.
Proof. reflexivity. Qed.

(** X1, witness: the CounterSignature of [sigInTime]. *)
Lemma VerifyTimestamp_result_consistent_witness :
  @VerifyTimestamp world sigInTime = inl csInTime
  /\ (exists verifyBlob,
        @SignerInfo_Verify world (Sig_SignerInfo (Signature csInTime))
          verifyBlob false (Intermediates (Signature csInTime))
        = inl (Sig_Certificate (Signature csInTime)))
  /\ GetOne (@unmarshalTime world)
       (AuthenticatedAttributes (Sig_SignerInfo (Signature csInTime)))
       oidSigningTime
     = inl 150.
Proof.
  split; [reflexivity|].
  exact (@TimestampResults.VerifyTimestamp_result_consistent world sigInTime
           csInTime eq_refl).
Defined.

(** X2, witness: the standard token of [sigBoth]. *)
Lemma VerifyTimestamp_token_result_witness :
  @lookupToken world (UnauthenticatedAttributes (Sig_SignerInfo sigBoth))
  = inl (token Byte.x01 Byte.x05 imprintOfParent)
  /\ @VerifyTimestamp world sigBoth = inl (csAt Byte.x05)
  /\ exists tsicerts tstinfo verifyBlob,
       SignerInfos (CISD_Content (token Byte.x01 Byte.x05 imprintOfParent))
       = [Sig_SignerInfo (Signature (csAt Byte.x05))]
       /\ @RawCertificates_Parse world
            (Certificates
               (CISD_Content (token Byte.x01 Byte.x05 imprintOfParent)))
          = inl tsicerts
       /\ @UnpackTokenInfo world (token Byte.x01 Byte.x05 imprintOfParent)
          = inl tstinfo
       /\ @ContentInfo_Bytes world
            (SD_ContentInfo
               (CISD_Content (token Byte.x01 Byte.x05 imprintOfParent)))
          = inl verifyBlob
       /\ @SignerInfo_Verify world (Sig_SignerInfo (Signature (csAt Byte.x05)))
            verifyBlob false (Intermediates (Signature (csAt Byte.x05)))
          = inl (Sig_Certificate (Signature (csAt Byte.x05)))
       /\ Hash (csAt Byte.x05)
          = fst (@PkixDigestToHash world
                   (HashAlgorithm (TSTInfo_MessageImprint tstinfo)))
       /\ Intermediates (Signature (csAt Byte.x05))
          = (Intermediates sigBoth ++ tsicerts)%list.
Proof.
  split; [reflexivity|]. split; [reflexivity|].
  exact (@TimestampResults.VerifyTimestamp_token_result world sigBoth
           (token Byte.x01 Byte.x05 imprintOfParent) (csAt Byte.x05)
           eq_refl eq_refl).
Defined.


(** X4, witness: the standard attribute of [sigMalformedToken] does not
    decode; the sound authenticode token and counter-signature behind it are
    not consulted. *)
Lemma VerifyTimestamp_no_fallback_on_decode_error_witness :
  GetOne (@unmarshalSignedData world)
    (UnauthenticatedAttributes (Sig_SignerInfo sigMalformedToken))
    oidTimeStampToken
  = inr (errorString "asn1: structure error: SignedData")
  /\ GetOne (@unmarshalSignedData world)
       (UnauthenticatedAttributes (Sig_SignerInfo sigMalformedToken))
       oidSpcTimeStampToken
     = inl (token Byte.x01 Byte.x09 imprintOfParent)
  /\ @VerifyTimestamp world sigMalformedToken
     = inr (errorString "asn1: structure error: SignedData")
  /\ @VerifyOptionalTimestamp world sigMalformedToken
     = ({| TS_Signature := sigMalformedToken; TS_CounterSignature := None |},
        Some (errorString "asn1: structure error: SignedData")).
Proof.
  split; [reflexivity|]. split; [reflexivity|].
  apply (@TimestampResults.VerifyTimestamp_no_fallback_on_decode_error world
           sigMalformedToken "asn1: structure error: SignedData").
  left. reflexivity.
Defined.

(** X6, witness: [sigLegacyOtherSigner] differs from [sigLegacy] in its
    certificate, version and authenticated attributes only. *)
Lemma VerifyTimestamp_reads_witness :
  Sig_Certificate sigLegacyOtherSigner <> Sig_Certificate sigLegacy
  /\ @VerifyTimestamp world sigLegacyOtherSigner
     = @VerifyTimestamp world sigLegacy.
Proof.
  split; [discriminate|].
  apply (@TimestampResults.VerifyTimestamp_reads world sigLegacy
           sigLegacyOtherSigner); reflexivity.
Defined.

(** X7, witness: the chain of the timestamp of [sigInTime], validated at the
    time 1000 with the signer's certificate as an extra certificate. *)
Lemma VerifyChain_after_VerifyTimestamp_witness :
  @VerifyTimestamp world sigInTime = inl csInTime
  /\ @CounterSignature_VerifyChain world 1000 csInTime trustRoots [leafCert]
     = @buildChains world tsaCert
         ([leafCert] ++ Intermediates sigInTime ++ [])%list trustRoots
         [x509.ExtKeyUsageTimeStamping] 150.
Proof.
  split; [reflexivity|].
  exact (proj1 (@ChainComposition.VerifyChain_after_VerifyTimestamp world 1000
                  sigInTime csInTime trustRoots [leafCert] eq_refl)
           (token Byte.x01 Byte.x96 imprintOfParent) [] eq_refl eq_refl).
Defined.

(** X8, witness: [sigPlain] at the time 150, inside the validity of the
    signer's certificate, and at the time 1000, past it. *)
Lemma unstamped_chain_at_current_time_witness :
  (snd (@VerifyOptionalTimestamp world sigPlain) = None
   /\ @TimestampedSignature_VerifyChain world 150
        (fst (@VerifyOptionalTimestamp world sigPlain)) trustRoots []
        x509.ExtKeyUsageCodeSigning
      = @buildChains world leafCert ([] ++ Intermediates sigPlain)%list
          trustRoots [x509.ExtKeyUsageCodeSigning] 150)
  /\ @TimestampedSignature_VerifyChain world 1000
       (fst (@VerifyOptionalTimestamp world sigPlain)) trustRoots []
       x509.ExtKeyUsageCodeSigning
     = Some (errorString "x509: certificate has expired or is not yet valid").
Proof.
  split.
  - apply (@ChainComposition.unstamped_chain_at_current_time world 150
             sigPlain trustRoots [] x509.ExtKeyUsageCodeSigning);
      apply Runs.not_carries_nil.
  - reflexivity.
Defined.

(** X9, witness: [sigInTime], stamped at the time 150, validated at the time
    1000 when both certificates have expired. *)
Lemma stamped_chain_at_signing_time_witness :
  @VerifyTimestamp world sigInTime = inl csInTime
  /\ time_IsZero (SigningTime csInTime) = false
  /\ @TimestampedSignature_VerifyChain world 1000
       (fst (@VerifyOptionalTimestamp world sigInTime)) trustRoots []
       x509.ExtKeyUsageCodeSigning
     = None.
Proof.
  split; [reflexivity|]. split; [reflexivity|].
  rewrite (@ChainComposition.stamped_chain_at_signing_time world sigInTime
             csInTime trustRoots [] x509.ExtKeyUsageCodeSigning
             eq_refl eq_refl 1000).
  reflexivity.
Defined.

(** X13, witness: verifying a file the registry knows. *)
Lemma verify_returns_one_signature_witness :
  exists style ts,
    @GetSigStyle signerWorld "script.ps1" = Some style
    /\ @VerifyPowershell signerWorld [Byte.x01] style false = inl ts
    /\ fst (@ps.verify world signerWorld
              {| ps.Name := "script.ps1"; ps.Contents := [Byte.x01] |}
              {| signers.NoDigests := false |})
       = [ps.CallVerifyPowershell style false]
    /\ [ {| signers.Sig_Hash := 5%N; signers.X509Signature := unstamped |} ]
       = [ {| signers.Sig_Hash :=
                fst (@PkixDigestToHash world
                       (DigestAlgorithm (Sig_SignerInfo (TS_Signature ts))));
              signers.X509Signature := ts |} ].
Proof.
  apply (@FacadeStages.verify_returns_one_signature world signerWorld
           {| ps.Name := "script.ps1"; ps.Contents := [Byte.x01] |}
           {| signers.NoDigests := false |}).
  vm_compute. reflexivity.
Defined.

End MoreRuns.
